(** * The key-value ledger coordinator of core/ledger/kvledger/kv_ledger.go

    A shallow embedding of [KVLedger]: its constructor with the start-up
    recovery of the state database, the prepare / commit / rollback protocol
    and [Prune].  The three stores the ledger drives (block store, state
    transaction manager, history manager) are Go interfaces whose
    implementations live in other packages; they are type classes here and
    every call the ledger makes on them is recorded in a trace. *)

From Stdlib Require Import ZArith Lia.
From stdpp Require Import base strings list gmap.

Local Open Scope Z_scope.

(** ** Go scalars *)

(** [uint64]: a [Z] in [0, 2^64); arithmetic wraps around. *)
Definition MaxUint64 : Z := 2 ^ 64 - 1.
Definition is_uint64 (z : Z) : Prop := 0 <= z <= MaxUint64.
Definition wrap64 (z : Z) : Z := z mod 2 ^ 64.

(** A Go [error] value: [None] is [nil], [Some msg] an error with that text. *)
Definition error : Type := option string.

(** [pb.BlockchainInfo] (declared in protos/peer): the height of the chain
    and the hashes of the current and of the previous block. *)
Record BlockchainInfo : Type := {
  Height : Z;
  CurrentBlockHash : list Z;
  PreviousBlockHash : list Z
}.

(** ** The collaborators' interfaces

    A method of a store is a function on the store's state.  Reads return
    their result only; the methods that write return the new state as well.
    A pointer result ([*common.Block], [*pb.BlockchainInfo]) is an [option],
    [None] being [nil]. *)

(** [blkstorage.BlockStore] *)
Class BlockStore (Block BS : Type) : Type := {
  bs_AddBlock : BS -> Block -> BS * error;
  bs_GetBlockchainInfo : BS -> option BlockchainInfo * error;
  bs_RetrieveBlockByNumber : BS -> Z -> option Block * error
}.

(** [txmgmt.TxMgr] *)
Class TxMgr (Block InvalidTransaction TM : Type) : Type := {
  tm_ValidateAndPrepare :
    TM -> option Block -> bool ->
    TM * (option Block * list InvalidTransaction * error);
  tm_GetBlockNumFromSavepoint : TM -> Z * error;
  tm_Commit : TM -> TM * error;
  tm_Rollback : TM -> TM
}.

(** [history.HistMgr] *)
Class HistMgr (Block HS : Type) : Type := {
  hist_Commit : HS -> Block -> HS * error
}.

(** ** The ledger and its actions *)

(** [type KVLedger struct].  The fields hold the state of the store behind
    each handle.  [historymgmt] is a handle that [NewKVLedger] sets exactly
    when the history database is enabled, and [Commit] uses it only then. *)
Record KVLedger (Block BS TM HS : Type) : Type := mkKVLedger {
  blockStore : BS;
  txtmgmt : TM;
  historymgmt : HS;
  pendingBlockToCommit : option Block
}.
Arguments mkKVLedger {Block BS TM HS}.
Arguments blockStore {Block BS TM HS}.
Arguments txtmgmt {Block BS TM HS}.
Arguments historymgmt {Block BS TM HS}.
Arguments pendingBlockToCommit {Block BS TM HS}.

(** One call of the ledger on a collaborator. *)
Inductive Event (Block : Type) : Type :=
| BlockStore_GetBlockchainInfo
| BlockStore_RetrieveBlockByNumber (blockNumber : Z)
| BlockStore_AddBlock (block : Block)
| TxMgr_GetBlockNumFromSavepoint
| TxMgr_ValidateAndPrepare (block : option Block) (filterInvalid : bool)
| TxMgr_Commit
| TxMgr_Rollback
| HistMgr_Commit (block : Block).
Arguments BlockStore_GetBlockchainInfo {Block}.
Arguments BlockStore_RetrieveBlockByNumber {Block}.
Arguments BlockStore_AddBlock {Block}.
Arguments TxMgr_GetBlockNumFromSavepoint {Block}.
Arguments TxMgr_ValidateAndPrepare {Block}.
Arguments TxMgr_Commit {Block}.
Arguments TxMgr_Rollback {Block}.
Arguments HistMgr_Commit {Block}.

(** How a call ends: it returns, it panics, or (for the recovery loop, which
    the model runs on fuel) it is still running when the fuel is spent. *)
Inductive Outcome (A : Type) : Type :=
| Returned (a : A)
| Panicked (msg : string)
| OutOfFuel.
Arguments Returned {A}.
Arguments Panicked {A}.
Arguments OutOfFuel {A}.

Definition nil_dereference : string :=
  "runtime error: invalid memory address or nil pointer dereference".

(** The text of the error that [recoverStateDB] makes with [errors.New] when
    the savepoint is ahead of the block store (the verb is not formatted). *)
Definition errBehindSavepoint : string :=
  "BlockStorage height is behind savepoint by %d blocks. Recovery the BlockStore first".

Section Coordinator.
Context {Block InvalidTransaction BS TM HS : Type}.
Context {blockStoreI : BlockStore Block BS}
        {txMgrI : TxMgr Block InvalidTransaction TM}
        {histMgrI : HistMgr Block HS}.

(** [ledgerconfig.IsHistoryDBEnabled()] *)
Variable IsHistoryDBEnabled : bool.

Abbreviation Ledger := (KVLedger Block BS TM HS).

(** A method with receiver [l *KVLedger]: from the ledger before the call
    to the outcome, the ledger after it and the collaborator calls made. *)
Definition Act (A : Type) : Type :=
  Ledger -> Outcome A * Ledger * list (Event Block).

Definition ret {A} (a : A) : Act A := fun l => (Returned a, l, []).
Definition panic {A} (msg : string) : Act A := fun l => (Panicked msg, l, []).
Definition out_of_fuel {A} : Act A := fun l => (OutOfFuel, l, []).
Definition bind {A B} (m : Act A) (k : A -> Act B) : Act B :=
  fun l =>
    match m l with
    | (Returned a, l1, t1) =>
        match k a l1 with (o, l2, t2) => (o, l2, t1 ++ t2) end
    | (Panicked msg, l1, t1) => (Panicked msg, l1, t1)
    | (OutOfFuel, l1, t1) => (OutOfFuel, l1, t1)
    end.

Notation "x <- m ;; k" := (bind m (fun x => k))
  (at level 100, m at next level, right associativity).
Notation "m ;;; k" := (bind m (fun _ => k))
  (at level 100, right associativity).

(** Field access on the receiver. *)
Definition get_pendingBlockToCommit : Act (option Block) :=
  fun l => (Returned (pendingBlockToCommit l), l, []).
Definition set_pendingBlockToCommit (p : option Block) : Act unit :=
  fun l => (Returned tt,
            mkKVLedger (blockStore l) (txtmgmt l) (historymgmt l) p, []).

(** The calls on the three handles. *)
Definition blockStore_GetBlockchainInfo : Act (option BlockchainInfo * error) :=
  fun l => (Returned (bs_GetBlockchainInfo (blockStore l)), l,
            [BlockStore_GetBlockchainInfo]).

Definition blockStore_RetrieveBlockByNumber (blockNumber : Z)
  : Act (option Block * error) :=
  fun l => (Returned (bs_RetrieveBlockByNumber (blockStore l) blockNumber), l,
            [BlockStore_RetrieveBlockByNumber blockNumber]).

Definition blockStore_AddBlock (block : Block) : Act error :=
  fun l =>
    match bs_AddBlock (blockStore l) block with
    | (bs', err) =>
        (Returned err,
         mkKVLedger bs' (txtmgmt l) (historymgmt l) (pendingBlockToCommit l),
         [BlockStore_AddBlock block])
    end.

Definition txtmgmt_GetBlockNumFromSavepoint : Act (Z * error) :=
  fun l => (Returned (tm_GetBlockNumFromSavepoint (txtmgmt l)), l,
            [TxMgr_GetBlockNumFromSavepoint]).

Definition txtmgmt_ValidateAndPrepare (block : option Block) (filterInvalid : bool)
  : Act (option Block * list InvalidTransaction * error) :=
  fun l =>
    match tm_ValidateAndPrepare (txtmgmt l) block filterInvalid with
    | (tm', r) =>
        (Returned r,
         mkKVLedger (blockStore l) tm' (historymgmt l) (pendingBlockToCommit l),
         [TxMgr_ValidateAndPrepare block filterInvalid])
    end.

Definition txtmgmt_Commit : Act error :=
  fun l =>
    match tm_Commit (txtmgmt l) with
    | (tm', err) =>
        (Returned err,
         mkKVLedger (blockStore l) tm' (historymgmt l) (pendingBlockToCommit l),
         [TxMgr_Commit])
    end.

Definition txtmgmt_Rollback : Act unit :=
  fun l =>
    (Returned tt,
     mkKVLedger (blockStore l) (tm_Rollback (txtmgmt l)) (historymgmt l)
                (pendingBlockToCommit l),
     [TxMgr_Rollback]).

Definition historymgmt_Commit (block : Block) : Act error :=
  fun l =>
    match hist_Commit (historymgmt l) block with
    | (hs', err) =>
        (Returned err,
         mkKVLedger (blockStore l) (txtmgmt l) hs' (pendingBlockToCommit l),
         [HistMgr_Commit block])
    end.

(** [func (l *KVLedger) GetBlockchainInfo()] *)
Definition GetBlockchainInfo : Act (option BlockchainInfo * error) :=
  blockStore_GetBlockchainInfo.

(** [func (l *KVLedger) GetBlockByNumber(blockNumber uint64)] *)
Definition GetBlockByNumber (blockNumber : Z) : Act (option Block * error) :=
  blockStore_RetrieveBlockByNumber blockNumber.

(** The [for] loop of [recoverStateDB], entered with [blockNumber] at
    [savepointValue + 1]; [height] is [info.Height].  One unit of fuel
    pays for one iteration; the loop test itself is free.  The fetched
    pointer is stored in [l.pendingBlockToCommit] before [err] is tested,
    as the Go assignment in the [if] header does. *)
Fixpoint recoverLoop (fuel : nat) (blockNumber height : Z) : Act error :=
  if blockNumber <=? height then
    match fuel with
    | O => out_of_fuel
    | S fuel' =>
        r <- GetBlockByNumber blockNumber ;;
        set_pendingBlockToCommit (fst r) ;;;
        match snd r with
        | Some e => ret (Some e)
        | None =>
            pending <- get_pendingBlockToCommit ;;
            v <- txtmgmt_ValidateAndPrepare pending false ;;
            match snd v with
            | Some e => ret (Some e)
            | None =>
                err <- txtmgmt_Commit ;;
                match err with
                | Some e => ret (Some e)
                | None => recoverLoop fuel' (wrap64 (blockNumber + 1)) height
                end
            end
        end
    end
  else
    (set_pendingBlockToCommit None ;;; ret None).

(** [func recoverStateDB(l *KVLedger) error] *)
Definition recoverStateDB (fuel : nat) : Act error :=
  r <- blockStore_GetBlockchainInfo ;;
  match fst r with
  | None => panic nil_dereference
  | Some info =>
      if Height info =? 0 then ret None
      else
        sp <- txtmgmt_GetBlockNumFromSavepoint ;;
        match snd sp with
        | Some e => ret (Some e)
        | None =>
            let savepointValue := fst sp in
            if savepointValue =? Height info then ret None
            else if savepointValue >? Height info then
              ret (Some errBehindSavepoint)
            else
              recoverLoop fuel (wrap64 (savepointValue + 1)) (Height info)
        end
  end.

(** [func NewKVLedger], which returns a ledger handle and an error, from
    the point where the three stores have been opened: the ledger is built
    with no pending block and recovered; an error of the recovery is a
    panic, so no handle is returned then. *)
Definition NewKVLedger (fuel : nat) (blockStore0 : BS) (txmgmt0 : TM)
    (historymgmt0 : HS) : Outcome (Ledger * error) * list (Event Block) :=
  let l := mkKVLedger blockStore0 txmgmt0 historymgmt0 None in
  match recoverStateDB fuel l with
  | (Returned (Some e), _, t) =>
      (Panicked ("Error during state DB recovery:" +:+ e), t)
  | (Returned None, l', t) => (Returned (l', None), t)
  | (Panicked msg, _, t) => (Panicked msg, t)
  | (OutOfFuel, _, t) => (OutOfFuel, t)
  end.

(** [func (l *KVLedger) Prune(policy ledger.PrunePolicy) error] *)
Definition Prune {PrunePolicy : Type} (policy : PrunePolicy) : Act error :=
  ret (Some "Not yet implemented").

(** [func (l *KVLedger) RemoveInvalidTransactionsAndPrepare(block)] *)
Definition RemoveInvalidTransactionsAndPrepare (block : option Block)
  : Act (option Block * list InvalidTransaction * error) :=
  v <- txtmgmt_ValidateAndPrepare block true ;;
  match v with
  | (validBlock, invalidTxs, err) =>
      (match err with
       | None => set_pendingBlockToCommit validBlock
       | Some _ => ret tt
       end) ;;;
      ret (validBlock, invalidTxs, err)
  end.

(** [func (l *KVLedger) Commit() error] *)
Definition Commit : Act error :=
  pending <- get_pendingBlockToCommit ;;
  match pending with
  | None =>
      panic "Nothing to commit. RemoveInvalidTransactionsAndPrepare() method should have been called and should not have thrown error"
  | Some block =>
      err <- blockStore_AddBlock block ;;
      match err with
      | Some e => ret (Some e)
      | None =>
          err <- txtmgmt_Commit ;;
          match err with
          | Some e => panic ("Error during commit to txmgr:" +:+ e)
          | None =>
              (if IsHistoryDBEnabled then
                 err <- historymgmt_Commit block ;;
                 match err with
                 | Some e => panic ("Error during commit to txthistory:" +:+ e)
                 | None => ret tt
                 end
               else ret tt) ;;;
              set_pendingBlockToCommit None ;;;
              ret None
          end
      end
  end.

(** [func (l *KVLedger) Rollback()] *)
Definition Rollback : Act unit :=
  txtmgmt_Rollback ;;;
  set_pendingBlockToCommit None.

End Coordinator.

(** ** The protocol as the specification words it

    The sequences of collaborator calls that the specification prescribes,
    written down independently of the Go code and compared with it in the
    theorems. *)

Section Protocol.
Context {Block InvalidTransaction BS TM : Type}.
Context {blockStoreI : BlockStore Block BS}
        {txMgrI : TxMgr Block InvalidTransaction TM}.

(** The calls of a complete commit of [block], in order: append to the
    block store, commit of the state manager, and the history manager
    when it is enabled. *)
Definition commit_calls (IsHistoryDBEnabled : bool) (block : Block)
  : list (Event Block) :=
  [BlockStore_AddBlock block; TxMgr_Commit]
  ++ (if IsHistoryDBEnabled then [HistMgr_Commit block] else []).

(** Replay of the missing heights, in the order of the list: fetch the
    block by number, validate and prepare it without filtering, commit the
    update set; the first failing step ends the replay with its error.
    The result is that error (or nil), the state manager after the replay
    and the calls made. *)
Fixpoint replay (bs : BS) (tm : TM) (heights : list Z)
  : error * TM * list (Event Block) :=
  match heights with
  | [] => (None, tm, [])
  | n :: rest =>
      match bs_RetrieveBlockByNumber bs n with
      | (_, Some e) => (Some e, tm, [BlockStore_RetrieveBlockByNumber n])
      | (block, None) =>
          match tm_ValidateAndPrepare tm block false with
          | (tm1, (_, _, Some e)) =>
              (Some e, tm1,
               [BlockStore_RetrieveBlockByNumber n;
                TxMgr_ValidateAndPrepare block false])
          | (tm1, (_, _, None)) =>
              match tm_Commit tm1 with
              | (tm2, Some e) =>
                  (Some e, tm2,
                   [BlockStore_RetrieveBlockByNumber n;
                    TxMgr_ValidateAndPrepare block false;
                    TxMgr_Commit])
              | (tm2, None) =>
                  match replay bs tm2 rest with
                  | (err, tm3, calls) =>
                      (err, tm3,
                       [BlockStore_RetrieveBlockByNumber n;
                        TxMgr_ValidateAndPrepare block false;
                        TxMgr_Commit] ++ calls)
                  end
              end
          end
      end
  end.

(** The two reads that open a recovery past an empty block store. *)
Definition recovery_reads : list (Event Block) :=
  [BlockStore_GetBlockchainInfo; TxMgr_GetBlockNumFromSavepoint].

(** The heights fetched in a sequence of calls, in order. *)
Definition fetched (calls : list (Event Block)) : list Z :=
  omap (fun c => match c with
                 | BlockStore_RetrieveBlockByNumber n => Some n
                 | _ => None
                 end) calls.

(** The calls of a replay of [heights] in which no step fails: for each
    height in turn the fetch, the prepare of the fetched block with
    [filterInvalid = false], and the commit of the state manager. *)
Definition replay_calls (bs : BS) (heights : list Z) : list (Event Block) :=
  flat_map (fun n =>
              [BlockStore_RetrieveBlockByNumber n;
               TxMgr_ValidateAndPrepare (fst (bs_RetrieveBlockByNumber bs n)) false;
               TxMgr_Commit]) heights.
End Protocol.

(** ** What the ledger relies on from its stores

    Modelled from the spec: the contracts of the block store and of the
    state transaction manager, whose implementations are not part of this
    file.  They are stated on the classes, are hypotheses of the theorems
    that need them and are proved of the reference stores below. *)

Section Contracts.
Context {Block InvalidTransaction BS TM : Type}.
Context {blockStoreI : BlockStore Block BS}
        {txMgrI : TxMgr Block InvalidTransaction TM}.

(** [block.Header.Number] *)
Variable Number : Block -> Z.

(** Modelled from the spec: blockByNumber of the block store.  Up to
    height [h] a successful fetch of number [n] returns the block that
    carries that number. *)
Definition serves_blocks_by_number (bs : BS) (h : Z) : Prop :=
  forall n r,
    0 <= n <= h ->
    bs_RetrieveBlockByNumber bs n = (r, None) ->
    exists b, r = Some b /\ Number b = n.

(** Modelled from the spec: commit of the state transaction manager.
    Committing the update set prepared for a block moves the savepoint to
    that block's number. *)
Definition savepoint_follows_commit : Prop :=
  forall (tm tm1 tm2 : TM) (b : Block) vb (inv : list InvalidTransaction),
    tm_ValidateAndPrepare tm (Some b) false = (tm1, (vb, inv, None)) ->
    tm_Commit tm1 = (tm2, None) ->
    tm_GetBlockNumFromSavepoint tm2 = (Number b, None).

(** The durable part of a state manager (committed state and savepoint),
    as a projection [durable] of its state. *)
Variable Durable : Type.
Variable durable : TM -> Durable.

(** Modelled from the spec: the savepoint is persisted, so it is read off
    the durable part. *)
Definition savepoint_is_durable : Prop :=
  forall tm tm' : TM,
    durable tm = durable tm' ->
    tm_GetBlockNumFromSavepoint tm = tm_GetBlockNumFromSavepoint tm'.

(** Modelled from the spec: the update set that validateAndPrepare stages
    is in memory only. *)
Definition prepare_is_volatile : Prop :=
  forall (tm : TM) (b : option Block) (filterInvalid : bool),
    durable (fst (tm_ValidateAndPrepare tm b filterInvalid)) = durable tm.

(** Modelled from the spec: rollback discards the staged update set
    without touching durable storage. *)
Definition rollback_is_volatile : Prop :=
  forall tm : TM, durable (tm_Rollback tm) = durable tm.

(** Modelled from the spec: with nothing staged, rollback has nothing to
    discard. *)
Definition rollback_is_idempotent : Prop :=
  forall tm : TM, tm_Rollback (tm_Rollback tm) = tm_Rollback tm.
End Contracts.

(** ** Reference stores

    In-memory stores behind the three interfaces, used to run the ledger on
    concrete chains. *)

Module Mem.

(** A transaction: the versions it read and the values it writes. *)
Record Tx : Type := mkTx {
  TxID : string;
  ReadSet : list (string * Z);
  WriteSet : list (string * string)
}.

(** [common.Block], reduced to its number, its transactions and the
    validity annotations of the transactions: one flag for each
    transaction, in block order, once the block was validated, and none
    before. *)
Record Block : Type := mkBlock {
  Number : Z;
  Data : list Tx;
  Validity : list bool
}.

#[global] Instance Tx_eq_dec : EqDecision Tx.
Proof. solve_decision. Defined.
#[global] Instance Block_eq_dec : EqDecision Block.
Proof. solve_decision. Defined.

(** *** Block store *)

(** Modelled from the spec: the block store (package fsblkstorage is not
    part of this file).  An append-only log of blocks numbered from 1; the
    height is the number of blocks; a block is looked up by its height,
    [MaxUint64] standing for the last one (the comment on
    [GetBlockByNumber]); an append must continue the numbering.  This
    store keeps no hashes. *)
Record BS : Type := mkBS { blocks : list Block }.

Definition GetBlockchainInfo (bs : BS) : option BlockchainInfo * error :=
  (Some {| Height := Z.of_nat (length (blocks bs));
           CurrentBlockHash := [];
           PreviousBlockHash := [] |}, None).

Definition RetrieveBlockByNumber (bs : BS) (n : Z) : option Block * error :=
  let n' := if n =? MaxUint64 then Z.of_nat (length (blocks bs)) else n in
  if (1 <=? n') && (n' <=? Z.of_nat (length (blocks bs))) then
    match blocks bs !! Z.to_nat (n' - 1) with
    | Some b => (Some b, None)
    | None => (None, Some "block not found")
    end
  else (None, Some "block not found").

Definition AddBlock (bs : BS) (b : Block) : BS * error :=
  if Number b =? Z.of_nat (length (blocks bs)) + 1 then
    (mkBS (blocks bs ++ [b]), None)
  else (bs, Some "block number out of sequence").

#[global] Instance BS_BlockStore : BlockStore Block BS := {|
  bs_AddBlock := AddBlock;
  bs_GetBlockchainInfo := GetBlockchainInfo;
  bs_RetrieveBlockByNumber := RetrieveBlockByNumber
|}.

(** A chain is well numbered when its i-th block carries number i. *)
Fixpoint numbered_from (n : Z) (bs : list Block) : bool :=
  match bs with
  | [] => true
  | b :: rest => (Number b =? n) && numbered_from (n + 1) rest
  end.

(** *** State transaction manager *)

(** Modelled from the spec: the state transaction manager (packages
    lockbasedtxmgmt and couchdbtxmgmt are not part of this file).  It
    holds the committed state, each key with the number of the block that
    wrote it, the savepoint, and the update set staged by the last
    ValidateAndPrepare, which is in memory only.  With [filterInvalid] a
    transaction is rejected when a key it read was written since (by a
    committed block or earlier in this block); the rejected transactions
    are tagged in the block that is returned, which keeps every
    transaction, are listed for the caller and are left out of the update
    set.  Without [filterInvalid], on the recovery path, the validity that
    the block carries is honoured and not recomputed (a transaction without
    an annotation counts as valid).  Commit writes the staged set and moves
    the savepoint to the block's number; Rollback drops the staged set. *)
Record TM : Type := mkTM {
  db : gmap string (string * Z);
  savepoint : Z;
  updateSet : option (gmap string string * Z)
}.

Definition committedVersion (d : gmap string (string * Z)) (k : string) : Z :=
  match d !! k with
  | Some (_, ver) => ver
  | None => 0
  end.

Definition validateTx (d : gmap string (string * Z))
    (updates : gmap string string) (tx : Tx) : bool :=
  forallb (fun r : string * Z =>
             match updates !! fst r with
             | Some _ => false
             | None => committedVersion d (fst r) =? snd r
             end) (ReadSet tx).

Definition addWriteSetToBatch (updates : gmap string string) (tx : Tx)
  : gmap string string :=
  foldl (fun u (w : string * string) => <[fst w := snd w]> u) updates
        (WriteSet tx).

(** The transactions of a block that its annotations accept, and those
    that they reject, each in block order. *)
Fixpoint accepted (txs : list Tx) (flags : list bool) : list Tx :=
  match txs, flags with
  | tx :: rest, f :: flags' =>
      if f then tx :: accepted rest flags' else accepted rest flags'
  | _, _ => []
  end.

Fixpoint rejected (txs : list Tx) (flags : list bool) : list Tx :=
  match txs, flags with
  | tx :: rest, f :: flags' =>
      if f then rejected rest flags' else tx :: rejected rest flags'
  | _, _ => []
  end.

(** The pass over the block's transactions, [prior] being the annotations
    the block came with: the update set, the validity flag of each
    transaction and the rejected transactions, in block order. *)
Fixpoint validateAll (filterInvalid : bool) (d : gmap string (string * Z))
    (txs : list Tx) (prior : list bool) (updates : gmap string string)
  : gmap string string * list bool * list Tx :=
  match txs with
  | [] => (updates, [], [])
  | tx :: rest =>
      let valid :=
        if filterInvalid then validateTx d updates tx else hd true prior in
      match validateAll filterInvalid d rest (tl prior)
              (if valid then addWriteSetToBatch updates tx else updates) with
      | (u, flags, invalid) =>
          (u, valid :: flags, if valid then invalid else tx :: invalid)
      end
  end.

(** The annotations that a validation against the state [d] gives the
    transactions [txs]. *)
Definition validityFlags (d : gmap string (string * Z)) (txs : list Tx)
  : list bool :=
  (validateAll true d txs [] ∅).1.2.

Definition ValidateAndPrepare (tm : TM) (block : option Block)
    (filterInvalid : bool) : TM * (option Block * list Tx * error) :=
  match block with
  | None => (tm, (None, [], Some "nil block"))
  | Some b =>
      match validateAll filterInvalid (db tm) (Data b) (Validity b) ∅ with
      | (u, flags, invalid) =>
          (mkTM (db tm) (savepoint tm) (Some (u, Number b)),
           (Some (mkBlock (Number b) (Data b) flags), invalid, None))
      end
  end.

Definition GetBlockNumFromSavepoint (tm : TM) : Z * error :=
  (savepoint tm, None).

Definition applyUpdates (d : gmap string (string * Z))
    (u : gmap string string) (blockNum : Z) : gmap string (string * Z) :=
  ((fun v => (v, blockNum)) <$> u) ∪ d.

Definition Commit (tm : TM) : TM * error :=
  match updateSet tm with
  | None => (tm, Some "validateAndPrepare() method should have been called before calling commit()")
  | Some (u, blockNum) =>
      (mkTM (applyUpdates (db tm) u blockNum) blockNum None, None)
  end.

Definition Rollback (tm : TM) : TM :=
  mkTM (db tm) (savepoint tm) None.

#[global] Instance TM_TxMgr : TxMgr Block Tx TM := {|
  tm_ValidateAndPrepare := ValidateAndPrepare;
  tm_GetBlockNumFromSavepoint := GetBlockNumFromSavepoint;
  tm_Commit := Commit;
  tm_Rollback := Rollback
|}.

(** The durable part: committed state and savepoint. *)
Definition durable (tm : TM) : gmap string (string * Z) * Z :=
  (db tm, savepoint tm).

(** *** History manager *)

(** Modelled from the spec: the history manager (package history is not
    part of this file): the blocks mirrored so far. *)
Record HS : Type := mkHS { mirrored : list Block }.

Definition HistCommit (hs : HS) (b : Block) : HS * error :=
  (mkHS (mirrored hs ++ [b]), None).

#[global] Instance HS_HistMgr : HistMgr Block HS := {|
  hist_Commit := HistCommit
|}.

(** *** A block store whose summary read fails

    The log of [BS] behind a [GetBlockchainInfo] that returns its summary
    together with an error, as the interface allows. *)
Definition GetBlockchainInfo_failing (bs : BS) : option BlockchainInfo * error :=
  (fst (GetBlockchainInfo bs), Some "blockchain info unavailable").

Definition failingInfoStore : BlockStore Block BS := {|
  bs_AddBlock := AddBlock;
  bs_GetBlockchainInfo := GetBlockchainInfo_failing;
  bs_RetrieveBlockByNumber := RetrieveBlockByNumber
|}.

(** *** A block store at the largest height

    A store that reports the height [MaxUint64] and serves an empty block
    under every number. *)
Definition fullStore : BlockStore Block BS := {|
  bs_AddBlock := AddBlock;
  bs_GetBlockchainInfo := fun _ =>
    (Some {| Height := MaxUint64;
             CurrentBlockHash := [];
             PreviousBlockHash := [] |}, None);
  bs_RetrieveBlockByNumber := fun _ n => (Some (mkBlock n [] []), None)
|}.

(** *** Sample data *)

(** Three transfers on one account: [tx2] read the account at the version
    [tx1] read, so it conflicts with [tx1]'s write. *)
Definition tx1 : Tx := mkTx "tx1" [("alice", 0)] [("alice", "90"); ("bob", "10")].
Definition tx2 : Tx := mkTx "tx2" [("alice", 0)] [("alice", "50"); ("carol", "50")].
Definition tx3 : Tx := mkTx "tx3" [("dave", 0)] [("dave", "7")].

Definition tx4 : Tx := mkTx "tx4" [("bob", 1)] [("bob", "0")].

(** Two blocks as they are submitted, not yet validated. *)
Definition block1 : Block := mkBlock 1 [tx1; tx2; tx3] [].
Definition block2 : Block := mkBlock 2 [tx4] [].

(** The two blocks as a live commit stores them: every transaction kept,
    [tx2] tagged invalid. *)
Definition stored1 : Block := mkBlock 1 [tx1; tx2; tx3] [true; false; true].
Definition stored2 : Block := mkBlock 2 [tx4] [true].

(** [block2] as a validation against the empty state returns it: [tx4]
    read a version of [bob] that the empty state does not have. *)
Definition block2OnFresh : Block := mkBlock 2 [tx4] [false].

Definition emptyTM : TM := mkTM ∅ 0 None.

(** A fresh ledger, as [NewKVLedger] builds it over empty stores. *)
Definition fresh : KVLedger Block BS TM HS :=
  mkKVLedger (mkBS []) emptyTM (mkHS []) None.

(** [fresh] after [block1] was prepared. *)
Definition prepared : KVLedger Block BS TM HS :=
  (RemoveInvalidTransactionsAndPrepare (Some block1) fresh).1.2.

(** [fresh] after [block2] was prepared: a pending block that does not
    continue the (empty) chain. *)
Definition preparedOutOfSequence : KVLedger Block BS TM HS :=
  (RemoveInvalidTransactionsAndPrepare (Some block2) fresh).1.2.

(** A restart with two blocks stored and an empty state database. *)
Definition lagging : KVLedger Block BS TM HS :=
  mkKVLedger (mkBS [stored1; stored2]) emptyTM (mkHS []) None.

(** A restart with two blocks stored and a savepoint of 5. *)
Definition ahead : KVLedger Block BS TM HS :=
  mkKVLedger (mkBS [stored1; stored2]) (mkTM ∅ 5 None) (mkHS []) None.

(** A restart with the savepoint one below [MaxUint64]. *)
Definition nearlyFull : KVLedger Block BS TM HS :=
  mkKVLedger (mkBS []) (mkTM ∅ (MaxUint64 - 1) None) (mkHS []) None.

(** A restart with no block stored and a savepoint of 5. *)
Definition aheadOfEmpty : KVLedger Block BS TM HS :=
  mkKVLedger (mkBS []) (mkTM ∅ 5 None) (mkHS []) None.

End Mem.

(** ** Configuration *)

(** [strings.HasSuffix]: [len(s) >= len(suffix)] and the last
    [len(suffix)] bytes of [s] are [suffix]. *)
Definition HasSuffix (s suffix : string) : bool :=
  (String.length suffix <=? String.length s)%nat
  && String.eqb
       (String.substring (String.length s - String.length suffix)
                  (String.length suffix) s)
       suffix.

(** [type Conf struct] *)
Record Conf : Type := mkConf {
  blockStorageDir : string;
  maxBlockfileSize : Z;
  txMgrDBPath : string
}.

(** [func NewConf(filesystemPath string, maxBlockfileSize int) *Conf] *)
Definition NewConf (filesystemPath : string) (maxBlockfileSize : Z) : Conf :=
  let filesystemPath :=
    if negb (HasSuffix filesystemPath "/") then filesystemPath +:+ "/"
    else filesystemPath in
  let blocksStorageDir := filesystemPath +:+ "blocks" in
  let txMgrDBPath := filesystemPath +:+ "txMgmgt/db" in
  mkConf blocksStorageDir maxBlockfileSize txMgrDBPath.

(** ** The calls of a recovery *)

(** The calls [recoverStateDB] can make: the two reads, the fetch of a
    block, the prepare without filtering and the commit of the state
    manager. *)
Definition is_recovery_call {Block : Type} (c : Event Block) : bool :=
  match c with
  | BlockStore_GetBlockchainInfo
  | TxMgr_GetBlockNumFromSavepoint
  | BlockStore_RetrieveBlockByNumber _
  | TxMgr_ValidateAndPrepare _ false
  | TxMgr_Commit => true
  | _ => false
  end.

(** The panic of [Commit] on a ledger without a pending block. *)
Definition errNothingToCommit : string :=
  "Nothing to commit. RemoveInvalidTransactionsAndPrepare() method should have been called and should not have thrown error".

(** ** Reference stores that fail

    The reference stores with one method replaced by a failing one, to run
    the error paths of the ledger. *)

Module Faulty.

(** A block store whose GetBlockchainInfo returns nil and an error. *)
Definition noInfoStore : BlockStore Mem.Block Mem.BS := {|
  bs_AddBlock := Mem.AddBlock;
  bs_GetBlockchainInfo := fun _ => (None, Some "blockchain info unavailable");
  bs_RetrieveBlockByNumber := Mem.RetrieveBlockByNumber
|}.

(** A state manager whose savepoint cannot be read. *)
Definition unreadableSavepoint : TxMgr Mem.Block Mem.Tx Mem.TM := {|
  tm_ValidateAndPrepare := Mem.ValidateAndPrepare;
  tm_GetBlockNumFromSavepoint := fun _ => (0, Some "savepoint unreadable");
  tm_Commit := Mem.Commit;
  tm_Rollback := Mem.Rollback
|}.

(** A state manager whose Commit fails and writes nothing. *)
Definition failingCommit : TxMgr Mem.Block Mem.Tx Mem.TM := {|
  tm_ValidateAndPrepare := Mem.ValidateAndPrepare;
  tm_GetBlockNumFromSavepoint := Mem.GetBlockNumFromSavepoint;
  tm_Commit := fun tm => (tm, Some "state database unavailable");
  tm_Rollback := Mem.Rollback
|}.

(** A history manager whose Commit fails and writes nothing. *)
Definition failingHistory : HistMgr Mem.Block Mem.HS := {|
  hist_Commit := fun hs _ => (hs, Some "history database unavailable")
|}.

End Faulty.

(** * Properties *)

(** Unfolds the plumbing of [Act] so that a run is a term over the
    collaborators' methods only. *)
Ltac unfold_act :=
  unfold Rollback, Commit, RemoveInvalidTransactionsAndPrepare, Prune,
    GetBlockByNumber, GetBlockchainInfo,
    bind, ret, panic, out_of_fuel,
    get_pendingBlockToCommit, set_pendingBlockToCommit,
    blockStore_GetBlockchainInfo, blockStore_RetrieveBlockByNumber,
    blockStore_AddBlock, txtmgmt_GetBlockNumFromSavepoint,
    txtmgmt_ValidateAndPrepare, txtmgmt_Commit, txtmgmt_Rollback,
    historymgmt_Commit in *.

Section CommitProtocol.
Context {Block InvalidTransaction BS TM HS : Type}.
Context {blockStoreI : BlockStore Block BS}
        {txMgrI : TxMgr Block InvalidTransaction TM}
        {histMgrI : HistMgr Block HS}.
Variable IsHistoryDBEnabled : bool.

Implicit Types l : KVLedger Block BS TM HS.

(** C3.  With a pending block, the calls [Commit] makes are an initial
    segment of: append to the block store, commit of the state manager,
    and (exactly when the history database is enabled) commit of the
    history manager.  When it returns nil it has made all of them, each on
    the store as the ledger held it, and the pending block is cleared; when
    it does not, the pending block is still in place, so the clearing comes
    last.  It does return nil when the calls succeed. *)
Theorem Commit_order l block :
  pendingBlockToCommit l = Some block ->
  let '(o, l', t) := Commit IsHistoryDBEnabled l in
  t `prefix_of` commit_calls IsHistoryDBEnabled block
  /\ (o = Returned None ->
      t = commit_calls IsHistoryDBEnabled block
      /\ pendingBlockToCommit l' = None
      /\ blockStore l' = fst (bs_AddBlock (blockStore l) block)
      /\ txtmgmt l' = fst (tm_Commit (txtmgmt l))
      /\ historymgmt l' =
           (if IsHistoryDBEnabled
            then fst (hist_Commit (historymgmt l) block)
            else historymgmt l))
  /\ (o <> Returned None -> pendingBlockToCommit l' = Some block)
  /\ (snd (bs_AddBlock (blockStore l) block) = None ->
      snd (tm_Commit (txtmgmt l)) = None ->
      (IsHistoryDBEnabled = true ->
       snd (hist_Commit (historymgmt l) block) = None) ->
      o = Returned None).
Proof.
  intros Hp. unfold commit_calls. unfold_act. rewrite Hp. simpl.
  destruct (bs_AddBlock (blockStore l) block) as [bs1 [e1|]]; simpl.
  { split; [by eexists|]. by repeat split. }
  destruct (tm_Commit (txtmgmt l)) as [tm1 [e2|]]; simpl.
  { split; [by eexists|]. by repeat split. }
  destruct IsHistoryDBEnabled; simpl.
  - destruct (hist_Commit (historymgmt l) block) as [hs1 [e3|]]; simpl.
    + split; [by eexists|]. repeat split; try done.
      intros _ _ Hh. specialize (Hh eq_refl). discriminate.
    + split; [by exists []|]. by repeat split.
  - split; [by exists []|]. by repeat split.
Qed.

(** C5.  Without a pending block [Commit] panics; it calls no store and
    leaves the ledger as it was. *)
Theorem Commit_idle_panics l :
  pendingBlockToCommit l = None ->
  Commit IsHistoryDBEnabled l =
    (Panicked "Nothing to commit. RemoveInvalidTransactionsAndPrepare() method should have been called and should not have thrown error",
     l, []).
Proof.
  intros Hp. unfold_act. rewrite Hp. reflexivity.
Qed.

(** C6.  When the append to the block store fails, [Commit] returns that
    error as an ordinary result; the append is its only call, the state
    manager and the history manager are as before, and the pending block
    stays in place. *)
Theorem Commit_append_failure l block bs1 e :
  pendingBlockToCommit l = Some block ->
  bs_AddBlock (blockStore l) block = (bs1, Some e) ->
  Commit IsHistoryDBEnabled l =
    (Returned (Some e),
     mkKVLedger bs1 (txtmgmt l) (historymgmt l) (Some block),
     [BlockStore_AddBlock block]).
Proof.
  intros Hp Ha. unfold_act. rewrite Hp. simpl. rewrite Ha. simpl.
  rewrite Hp. reflexivity.
Qed.

(** C10.  [Prune] returns its not-implemented error for every policy; it
    calls no store and leaves the ledger, pending block included, as it
    was. *)
Theorem Prune_not_implemented {PrunePolicy : Type} (policy : PrunePolicy) l :
  Prune policy l = (Returned (Some "Not yet implemented"), l, []).
Proof. reflexivity. Qed.

(** For every state manager: after a successful
    [RemoveInvalidTransactionsAndPrepare], whose only call is the state
    manager's ValidateAndPrepare with [filterInvalid = true], the pending
    block is the block that call returned; [Commit] appends that block to
    the block store, and when it returns nil the state manager has
    committed what that call staged. *)
Lemma Commit_appends_prepared_block l block validBlock invalidTxs l1 t1 :
  RemoveInvalidTransactionsAndPrepare block l =
    (Returned (Some validBlock, invalidTxs, None), l1, t1) ->
  t1 = [TxMgr_ValidateAndPrepare block true]
  /\ tm_ValidateAndPrepare (txtmgmt l) block true =
       (txtmgmt l1, (Some validBlock, invalidTxs, None))
  /\ blockStore l1 = blockStore l
  /\ pendingBlockToCommit l1 = Some validBlock
  /\ let '(o, l2, t2) := Commit IsHistoryDBEnabled l1 in
     (exists rest, t2 = BlockStore_AddBlock validBlock :: rest)
     /\ blockStore l2 = fst (bs_AddBlock (blockStore l) validBlock)
     /\ (o = Returned None -> txtmgmt l2 = fst (tm_Commit (txtmgmt l1))).
Proof.
  unfold RemoveInvalidTransactionsAndPrepare, bind, ret,
    txtmgmt_ValidateAndPrepare, set_pendingBlockToCommit.
  destruct (tm_ValidateAndPrepare (txtmgmt l) block true)
    as [tm1 [[vb inv] [e|]]] eqn:Hvp; simpl; intros Heq;
    inversion Heq; subst; clear Heq.
  simpl. repeat split.
  destruct (Commit IsHistoryDBEnabled _) as [[o l2] t2] eqn:Hrun.
  unfold_act. simpl in Hrun.
  destruct (bs_AddBlock (blockStore l) validBlock) as [bs1 [e1|]]; simpl in *.
  { inversion Hrun; subst. simpl. split; [by eexists|]. split; [done|]. discriminate. }
  destruct (tm_Commit tm1) as [tm2 [e2|]]; simpl in *.
  { inversion Hrun; subst. simpl. split; [by eexists|]. split; [done|]. discriminate. }
  destruct IsHistoryDBEnabled; simpl in *.
  - destruct (hist_Commit (historymgmt l) validBlock) as [hs1 [e3|]]; simpl in *;
      inversion Hrun; subst; simpl; (split; [by eexists|]); split; done.
  - inversion Hrun; subst; simpl. split; [by eexists|]. split; done.
Qed.

End CommitProtocol.

Section RollbackProtocol.
Context {Block InvalidTransaction BS TM HS : Type}.
Context {blockStoreI : BlockStore Block BS}
        {txMgrI : TxMgr Block InvalidTransaction TM}
        {histMgrI : HistMgr Block HS}.
Context {Durable : Type} (durable : TM -> Durable).

Implicit Types l : KVLedger Block BS TM HS.

(** C7.  For a state manager whose ValidateAndPrepare and Rollback leave
    its durable part alone and whose Rollback is idempotent: [Rollback]
    makes one call, the state manager's Rollback, and clears the pending
    block; after [RemoveInvalidTransactionsAndPrepare] and then [Rollback]
    the block store (so its height), the history manager, the durable part
    of the state manager and the savepoint it reports are what they were
    before the prepare; and a further [Rollback] changes nothing. *)
Theorem Rollback_discards_prepare l block :
  savepoint_is_durable Durable durable ->
  prepare_is_volatile Durable durable ->
  rollback_is_volatile Durable durable ->
  rollback_is_idempotent ->
  let '(o1, l1, t1) := RemoveInvalidTransactionsAndPrepare block l in
  let '(o2, l2, t2) := Rollback l1 in
  o2 = Returned tt
  /\ t2 = [TxMgr_Rollback]
  /\ txtmgmt l2 = tm_Rollback (txtmgmt l1)
  /\ pendingBlockToCommit l2 = None
  /\ blockStore l2 = blockStore l
  /\ historymgmt l2 = historymgmt l
  /\ durable (txtmgmt l2) = durable (txtmgmt l)
  /\ tm_GetBlockNumFromSavepoint (txtmgmt l2) =
       tm_GetBlockNumFromSavepoint (txtmgmt l)
  /\ bs_GetBlockchainInfo (blockStore l2) = bs_GetBlockchainInfo (blockStore l)
  /\ Rollback l2 = (Returned tt, l2, [TxMgr_Rollback]).
Proof.
  intros Hsp Hprep Hroll Hidem.
  unfold_act.
  pose proof (Hprep (txtmgmt l) block true) as Hd.
  destruct (tm_ValidateAndPrepare (txtmgmt l) block true)
    as [tm1 [[vb inv] err]]; simpl in *.
  assert (Hdur : durable (tm_Rollback tm1) = durable (txtmgmt l))
    by (rewrite Hroll; exact Hd).
  destruct err as [e|]; simpl; rewrite ?Hidem;
    repeat split; auto.
Qed.

End RollbackProtocol.

Section Recovery.
Context {Block InvalidTransaction BS TM HS : Type}.
Context {blockStoreI : BlockStore Block BS}
        {txMgrI : TxMgr Block InvalidTransaction TM}
        {histMgrI : HistMgr Block HS}.

Implicit Types l : KVLedger Block BS TM HS.

(** *** Arithmetic of the loop counter *)

Lemma wrap64_is_uint64 z : is_uint64 (wrap64 z).
Proof.
  unfold is_uint64, wrap64, MaxUint64.
  pose proof (Z.mod_pos_bound z (2 ^ 64)). lia.
Qed.

Lemma wrap64_succ z : 0 <= z < MaxUint64 -> wrap64 (z + 1) = z + 1.
Proof.
  unfold wrap64, MaxUint64. intros Hz. apply Z.mod_small. lia.
Qed.

Lemma wrap64_succ_max : wrap64 (MaxUint64 + 1) = 0.
Proof. reflexivity. Qed.

(** *** The loop, one iteration at a time *)

Lemma recoverLoop_exit fuel bn h l :
  h < bn ->
  recoverLoop fuel bn h l =
    (Returned None,
     mkKVLedger (blockStore l) (txtmgmt l) (historymgmt l) None, []).
Proof.
  intros Hlt. destruct fuel; simpl;
    (destruct (Z.leb_spec bn h); [lia|]); reflexivity.
Qed.

Lemma recoverLoop_no_fuel bn h l :
  bn <= h -> recoverLoop 0 bn h l = (OutOfFuel, l, []).
Proof.
  intros Hle. simpl. destruct (Z.leb_spec bn h); [|lia]. reflexivity.
Qed.

Lemma recoverLoop_step fuel bn h l :
  bn <= h ->
  recoverLoop (S fuel) bn h l =
    match bs_RetrieveBlockByNumber (blockStore l) bn with
    | (p, Some e) =>
        (Returned (Some e),
         mkKVLedger (blockStore l) (txtmgmt l) (historymgmt l) p,
         [BlockStore_RetrieveBlockByNumber bn])
    | (p, None) =>
        match tm_ValidateAndPrepare (txtmgmt l) p false with
        | (tm1, (_, _, Some e)) =>
            (Returned (Some e),
             mkKVLedger (blockStore l) tm1 (historymgmt l) p,
             [BlockStore_RetrieveBlockByNumber bn;
              TxMgr_ValidateAndPrepare p false])
        | (tm1, (_, _, None)) =>
            match tm_Commit tm1 with
            | (tm2, Some e) =>
                (Returned (Some e),
                 mkKVLedger (blockStore l) tm2 (historymgmt l) p,
                 [BlockStore_RetrieveBlockByNumber bn;
                  TxMgr_ValidateAndPrepare p false;
                  TxMgr_Commit])
            | (tm2, None) =>
                match recoverLoop fuel (wrap64 (bn + 1)) h
                        (mkKVLedger (blockStore l) tm2 (historymgmt l) p) with
                | (o, l', t) =>
                    (o, l',
                     [BlockStore_RetrieveBlockByNumber bn;
                      TxMgr_ValidateAndPrepare p false;
                      TxMgr_Commit] ++ t)
                end
            end
        end
    end.
Proof.
  intros Hle. cbn [recoverLoop].
  destruct (Z.leb_spec bn h); [|lia].
  unfold_act. simpl.
  destruct (bs_RetrieveBlockByNumber (blockStore l) bn) as [p [e|]]; simpl;
    [reflexivity|].
  destruct (tm_ValidateAndPrepare (txtmgmt l) p false)
    as [tm1 [[vb inv] [e|]]]; simpl; [reflexivity|].
  destruct (tm_Commit tm1) as [tm2 [e|]]; simpl; [reflexivity|].
  destruct (recoverLoop fuel (wrap64 (bn + 1)) h _) as [[o l'] t].
  reflexivity.
Qed.

(** The loop calls the block store for reads only and never the history
    manager. *)
Lemma recoverLoop_frame fuel : forall bn h l,
  blockStore (recoverLoop fuel bn h l).1.2 = blockStore l
  /\ historymgmt (recoverLoop fuel bn h l).1.2 = historymgmt l.
Proof.
  induction fuel as [|fuel IH]; intros bn h l.
  - destruct (Z.le_gt_cases bn h).
    + rewrite recoverLoop_no_fuel by done. done.
    + rewrite recoverLoop_exit by lia. done.
  - destruct (Z.le_gt_cases bn h).
    + rewrite recoverLoop_step by done.
      destruct (bs_RetrieveBlockByNumber (blockStore l) bn) as [p [e|]];
        [done|].
      destruct (tm_ValidateAndPrepare (txtmgmt l) p false)
        as [tm1 [[vb inv] [e|]]]; [done|].
      destruct (tm_Commit tm1) as [tm2 [e|]]; [done|].
      specialize (IH (wrap64 (bn + 1)) h
                     (mkKVLedger (blockStore l) tm2 (historymgmt l) p)).
      destruct (recoverLoop fuel _ h _) as [[o l'] t]. exact IH.
    + rewrite recoverLoop_exit by lia. done.
Qed.

(** At the largest height the loop test never fails, so the loop cannot
    run to its end. *)
Lemma recoverLoop_max_never_nil fuel : forall bn l,
  is_uint64 bn ->
  (recoverLoop fuel bn MaxUint64 l).1.1 <> Returned None.
Proof.
  induction fuel as [|fuel IH]; intros bn l Hbn.
  - rewrite recoverLoop_no_fuel by (unfold is_uint64 in Hbn; lia). done.
  - rewrite recoverLoop_step by (unfold is_uint64 in Hbn; lia).
    destruct (bs_RetrieveBlockByNumber (blockStore l) bn) as [p [e|]];
      [done|].
    destruct (tm_ValidateAndPrepare (txtmgmt l) p false)
      as [tm1 [[vb inv] [e|]]]; [done|].
    destruct (tm_Commit tm1) as [tm2 [e|]]; [done|].
    specialize (IH (wrap64 (bn + 1))
                   (mkKVLedger (blockStore l) tm2 (historymgmt l) p)
                   (wrap64_is_uint64 _)).
    destruct (recoverLoop fuel _ _ _) as [[o l'] t]. exact IH.
Qed.

(** *** The loop against the replay of the specification *)

(** [n] iterations of the loop from [bn], all within the height, are the
    replay of the [n] heights from [bn]; if none fails the loop goes on
    from the wrapped counter. *)
Lemma recoverLoop_replay n : forall k bn h l err tm' calls,
  is_uint64 bn ->
  bn + Z.of_nat n - 1 <= h ->
  h <= MaxUint64 ->
  replay (blockStore l) (txtmgmt l) (seqZ bn (Z.of_nat n)) = (err, tm', calls) ->
  exists p,
    recoverLoop (n + k) bn h l =
      match err with
      | Some e =>
          (Returned (Some e),
           mkKVLedger (blockStore l) tm' (historymgmt l) p, calls)
      | None =>
          match recoverLoop k (wrap64 (bn + Z.of_nat n)) h
                  (mkKVLedger (blockStore l) tm' (historymgmt l) p) with
          | (o2, l2, t2) => (o2, l2, calls ++ t2)
          end
      end.
Proof.
  induction n as [|n IH]; intros k bn h l err tm' calls Hbn Hle Hmax Hrep.
  - rewrite seqZ_nil in Hrep by lia. simpl in Hrep.
    inversion Hrep; subst; clear Hrep.
    exists (pendingBlockToCommit l). simpl.
    replace (wrap64 (bn + Z.of_nat 0)) with bn
      by (unfold wrap64, is_uint64, MaxUint64 in *;
          rewrite Z.add_0_r, Z.mod_small; lia).
    destruct l as [bs tm hs p]; simpl.
    destruct (recoverLoop k bn h _) as [[o2 l2] t2]. reflexivity.
  - rewrite seqZ_cons in Hrep by lia. simpl in Hrep.
    replace (S n + k)%nat with (S (n + k)) by lia.
    rewrite recoverLoop_step by lia.
    destruct (bs_RetrieveBlockByNumber (blockStore l) bn) as [p [e|]].
    { inversion Hrep; subst. by exists p. }
    destruct (tm_ValidateAndPrepare (txtmgmt l) p false)
      as [tm1 [[vb inv] [e|]]].
    { inversion Hrep; subst. by exists p. }
    destruct (tm_Commit tm1) as [tm2 [e|]].
    { inversion Hrep; subst. by exists p. }
    destruct (replay (blockStore l) tm2 (seqZ (Z.succ bn) (Z.pred (Z.of_nat (S n)))))
      as [[err1 tm3] calls1] eqn:Hrest.
    inversion Hrep; subst; clear Hrep.
    replace (Z.pred (Z.of_nat (S n))) with (Z.of_nat n) in Hrest by lia.
    assert (Hnext : (n = 0)%nat \/ wrap64 (bn + 1) = bn + 1).
    { destruct n; [by left|right].
      apply wrap64_succ. unfold is_uint64 in Hbn. lia. }
    assert (Hseq : seqZ (Z.succ bn) (Z.of_nat n) = seqZ (wrap64 (bn + 1)) (Z.of_nat n)).
    { destruct Hnext as [-> | ->]; [by rewrite !seqZ_nil by lia|].
      by rewrite Z.add_1_r. }
    assert (Hend : wrap64 (wrap64 (bn + 1) + Z.of_nat n) = wrap64 (bn + Z.of_nat (S n))).
    { unfold wrap64. rewrite Zplus_mod_idemp_l. f_equal. lia. }
    rewrite Hseq in Hrest.
    destruct (IH k (wrap64 (bn + 1)) h
                (mkKVLedger (blockStore l) tm2 (historymgmt l) p)
                err tm' calls1 (wrap64_is_uint64 _)) as [p' Hrun].
    { destruct Hnext as [-> | ->]; [|lia].
      pose proof (wrap64_is_uint64 (bn + 1)) as Hw.
      unfold is_uint64 in *.
      destruct (decide (bn = MaxUint64)) as [->|Hne].
      - rewrite wrap64_succ_max. lia.
      - rewrite wrap64_succ by lia. lia. }
    { exact Hmax. }
    { exact Hrest. }
    simpl in Hrun. rewrite Hrun. exists p'.
    destruct err as [e|]; [reflexivity|].
    rewrite Hend.
    match goal with
    | |- context [recoverLoop k ?c h ?st] =>
        destruct (recoverLoop k c h st) as [[o2 l2] t2]
    end.
    reflexivity.
Qed.

(** The replay makes the calls of [replay_calls], in that order, up to its
    first failing step, and all of them when no step fails. *)
Lemma replay_in_order bs : forall heights tm err tm' calls,
  replay bs tm heights = (err, tm', calls) ->
  calls `prefix_of` replay_calls bs heights
  /\ (err = None -> calls = replay_calls bs heights).
Proof.
  induction heights as [|n rest IH]; intros tm err tm' calls Hrep;
    simpl in Hrep.
  - inversion Hrep; subst. split; [by exists []|done].
  - unfold replay_calls. simpl. fold (replay_calls bs rest).
    destruct (bs_RetrieveBlockByNumber bs n) as [p [e|]]; simpl.
    { inversion Hrep; subst. split; [by eexists|discriminate]. }
    destruct (tm_ValidateAndPrepare tm p false) as [tm1 [[vb inv] [e|]]].
    { inversion Hrep; subst. split; [by eexists|discriminate]. }
    destruct (tm_Commit tm1) as [tm2 [e|]].
    { inversion Hrep; subst. split; [by exists (replay_calls bs rest)|discriminate]. }
    destruct (replay bs tm2 rest) as [[err1 tm3] calls1] eqn:Hrest.
    inversion Hrep; subst; clear Hrep.
    destruct (IH _ _ _ _ Hrest) as (Hpre & Hall).
    split.
    + simpl. by do 3 apply prefix_cons.
    + intros ->. simpl. by rewrite Hall.
Qed.

(** *** The recovery as a whole *)

(** However it ends, a recovery leaves the block store and the history
    manager as they were. *)
Lemma recoverStateDB_frame fuel l :
  blockStore (recoverStateDB fuel l).1.2 = blockStore l
  /\ historymgmt (recoverStateDB fuel l).1.2 = historymgmt l.
Proof.
  unfold recoverStateDB, bind, blockStore_GetBlockchainInfo,
    txtmgmt_GetBlockNumFromSavepoint, ret, panic.
  destruct (bs_GetBlockchainInfo (blockStore l)) as [[info|] ierr]; simpl;
    [|done].
  destruct (Height info =? 0); [done|].
  destruct (tm_GetBlockNumFromSavepoint (txtmgmt l)) as [s [e|]]; simpl;
    [done|].
  destruct (s =? Height info); [done|].
  destruct (s >? Height info); [done|].
  pose proof (recoverLoop_frame fuel (wrap64 (s + 1)) (Height info) l) as Hf.
  destruct (recoverLoop fuel (wrap64 (s + 1)) (Height info) l) as [[o l'] t].
  exact Hf.
Qed.

(** C1.  With the savepoint [s] below the height [h], and fuel for the
    [h - s] iterations: the calls of [recoverStateDB] start with its two
    reads followed by those of the replay of the heights [s+1 .. h], which
    are, for each height in increasing order, the fetch of the block, its
    prepare with [filterInvalid = false] and the commit of the state
    manager, up to the first failing step.  The block store and the history
    manager are as before.  When a step fails, [recoverStateDB] returns that
    step's error, has made no further call, and the state manager is as the
    replay left it.  When none fails all the calls of the replay were made,
    and, [h] being below the largest [uint64], [recoverStateDB] returns nil
    with the pending block cleared and no further call. *)
Theorem recoverStateDB_replays_missing_blocks fuel l info ierr s :
  bs_GetBlockchainInfo (blockStore l) = (Some info, ierr) ->
  tm_GetBlockNumFromSavepoint (txtmgmt l) = (s, None) ->
  is_uint64 s ->
  is_uint64 (Height info) ->
  s < Height info ->
  (Z.to_nat (Height info - s) <= fuel)%nat ->
  let heights := seqZ (s + 1) (Height info - s) in
  let '(err, tm', calls) := replay (blockStore l) (txtmgmt l) heights in
  let '(o, l', t) := recoverStateDB fuel l in
  (recovery_reads ++ calls) `prefix_of` t
  /\ calls `prefix_of` replay_calls (blockStore l) heights
  /\ blockStore l' = blockStore l
  /\ historymgmt l' = historymgmt l
  /\ match err with
     | Some e =>
         o = Returned (Some e)
         /\ t = recovery_reads ++ calls
         /\ txtmgmt l' = tm'
     | None =>
         calls = replay_calls (blockStore l) heights
         /\ (Height info < MaxUint64 ->
             o = Returned None
             /\ t = recovery_reads ++ calls
             /\ txtmgmt l' = tm'
             /\ pendingBlockToCommit l' = None)
     end.
Proof.
  intros Hinfo Hsp Hs Hh Hlt Hfuel heights.
  destruct (replay (blockStore l) (txtmgmt l) heights)
    as [[err tm'] calls] eqn:Hrep.
  destruct (replay_in_order _ _ _ _ _ _ Hrep) as (Hpre & Hall).
  unfold is_uint64 in Hs, Hh.
  set (n := Z.to_nat (Height info - s)).
  assert (Hn : Z.of_nat n = Height info - s) by (unfold n; lia).
  destruct (recoverLoop_replay n (fuel - n) (s + 1) (Height info) l
              err tm' calls) as [p Hloop].
  { unfold is_uint64. lia. }
  { lia. }
  { lia. }
  { rewrite Hn. exact Hrep. }
  replace (n + (fuel - n))%nat with fuel in Hloop by lia.
  unfold recoverStateDB, bind, blockStore_GetBlockchainInfo,
    txtmgmt_GetBlockNumFromSavepoint, ret.
  rewrite Hinfo. simpl.
  destruct (Z.eqb_spec (Height info) 0); [lia|].
  rewrite Hsp. simpl.
  destruct (Z.eqb_spec s (Height info)); [lia|].
  destruct (Z.gtb_spec s (Height info)); [lia|].
  rewrite wrap64_succ by lia. rewrite Hloop.
  destruct err as [e|].
  - simpl. repeat split; auto.
  - rewrite Hn.
    replace (s + 1 + (Height info - s)) with (Height info + 1) by lia.
    destruct (decide (Height info < MaxUint64)) as [Hsmall|Hbig].
    + rewrite wrap64_succ by lia.
      rewrite recoverLoop_exit by lia. simpl.
      rewrite app_nil_r. repeat split; auto.
    + match goal with
      | |- context [recoverLoop ?f ?c ?h ?st] =>
          pose proof (recoverLoop_frame f c h st) as [Hbs Hhs];
          destruct (recoverLoop f c h st) as [[o2 l2] t2]
      end.
      simpl in *. repeat split; auto; try lia.
      by exists t2.
Qed.

(** C2, as the code has it.  When the block store is not empty and the
    savepoint read succeeds with a value above the height,
    [recoverStateDB] returns its error after the two reads, with no fetch,
    prepare or commit and the ledger untouched, and [NewKVLedger] panics,
    so it returns no handle. *)
Theorem recoverStateDB_savepoint_ahead fuel l info ierr s :
  bs_GetBlockchainInfo (blockStore l) = (Some info, ierr) ->
  Height info <> 0 ->
  tm_GetBlockNumFromSavepoint (txtmgmt l) = (s, None) ->
  Height info < s ->
  recoverStateDB fuel l =
    (Returned (Some errBehindSavepoint), l, recovery_reads)
  /\ NewKVLedger fuel (blockStore l) (txtmgmt l) (historymgmt l) =
       (Panicked ("Error during state DB recovery:" +:+ errBehindSavepoint),
        recovery_reads).
Proof.
  intros Hinfo Hne Hsp Hlt.
  assert (Hrun : forall l0,
    blockStore l0 = blockStore l -> txtmgmt l0 = txtmgmt l ->
    recoverStateDB fuel l0 =
      (Returned (Some errBehindSavepoint), l0, recovery_reads)).
  { intros l0 Hbs Htm.
    unfold recoverStateDB, bind, blockStore_GetBlockchainInfo,
      txtmgmt_GetBlockNumFromSavepoint, ret.
    rewrite Hbs, Hinfo. simpl.
    destruct (Z.eqb_spec (Height info) 0); [lia|].
    rewrite Htm, Hsp. simpl.
    destruct (Z.eqb_spec s (Height info)); [lia|].
    destruct (Z.gtb_spec s (Height info)); [|lia].
    reflexivity. }
  split; [by apply Hrun|].
  unfold NewKVLedger. by rewrite Hrun.
Qed.

(** *** Recovery after recovery *)

(** [block.Header.Number] *)
Variable Number : Block -> Z.

(** A loop that runs to its end leaves the savepoint at the height. *)
Lemma recoverLoop_reaches_height fuel : forall bn h l l1 t,
  h < MaxUint64 ->
  1 <= bn <= h + 1 ->
  serves_blocks_by_number Number (blockStore l) h ->
  savepoint_follows_commit Number ->
  tm_GetBlockNumFromSavepoint (txtmgmt l) = (bn - 1, None) ->
  recoverLoop fuel bn h l = (Returned None, l1, t) ->
  tm_GetBlockNumFromSavepoint (txtmgmt l1) = (h, None)
  /\ pendingBlockToCommit l1 = None.
Proof.
  induction fuel as [|fuel IH]; intros bn h l l1 t Hh Hbn Hserve Hfollow Hsp Hrun.
  - destruct (Z.le_gt_cases bn h).
    + rewrite recoverLoop_no_fuel in Hrun by done. discriminate.
    + rewrite recoverLoop_exit in Hrun by lia.
      inversion Hrun; subst; simpl. rewrite Hsp.
      split; [|done]. f_equal. lia.
  - destruct (Z.le_gt_cases bn h).
    + rewrite recoverLoop_step in Hrun by done.
      destruct (bs_RetrieveBlockByNumber (blockStore l) bn)
        as [p [e|]] eqn:Hfetch; [discriminate|].
      destruct (Hserve bn p) as (b & -> & Hnum); [lia|done|].
      destruct (tm_ValidateAndPrepare (txtmgmt l) (Some b) false)
        as [tm1 [[vb inv] [e|]]] eqn:Hvp; [discriminate|].
      destruct (tm_Commit tm1) as [tm2 [e|]] eqn:Hc; [discriminate|].
      pose proof (Hfollow _ _ _ _ _ _ Hvp Hc) as Hsp2.
      destruct (recoverLoop fuel (wrap64 (bn + 1)) h _)
        as [[o l'] t'] eqn:Hrest.
      inversion Hrun; subst; clear Hrun.
      rewrite wrap64_succ in Hrest by lia.
      eapply IH in Hrest; eauto; simpl.
      * lia.
      * rewrite Hsp2. f_equal. lia.
    + rewrite recoverLoop_exit in Hrun by lia.
      inversion Hrun; subst; simpl. rewrite Hsp.
      split; [|done]. f_equal. lia.
Qed.

(** C8.  On an empty block store, and when the savepoint equals the
    height, [recoverStateDB] returns nil after its reads, with no prepare
    and no commit, and leaves the ledger as it was.  Further, over a block
    store that serves its blocks by number and a state manager whose
    savepoint follows its commits: after a recovery that returned nil,
    another recovery returns nil, makes the reads only and leaves the
    ledger, so the savepoint and the height, as the first one left it.
    And however a recovery ends, the block store is as it was. *)
Theorem recoverStateDB_idempotent fuel l info ierr :
  bs_GetBlockchainInfo (blockStore l) = (Some info, ierr) ->
  (Height info = 0 ->
   recoverStateDB fuel l = (Returned None, l, [BlockStore_GetBlockchainInfo]))
  /\ (Height info <> 0 ->
      tm_GetBlockNumFromSavepoint (txtmgmt l) = (Height info, None) ->
      recoverStateDB fuel l = (Returned None, l, recovery_reads))
  /\ blockStore (recoverStateDB fuel l).1.2 = blockStore l
  /\ (is_uint64 (Height info) ->
      is_uint64 (fst (tm_GetBlockNumFromSavepoint (txtmgmt l))) ->
      serves_blocks_by_number Number (blockStore l) (Height info) ->
      savepoint_follows_commit Number ->
      forall l1 t1,
        recoverStateDB fuel l = (Returned None, l1, t1) ->
        forall fuel',
          recoverStateDB fuel' l1 =
            (Returned None, l1,
             if Height info =? 0 then [BlockStore_GetBlockchainInfo]
             else recovery_reads)).
Proof.
  intros Hinfo.
  assert (Hzero : Height info = 0 ->
    forall f, recoverStateDB f l =
              (Returned None, l, [BlockStore_GetBlockchainInfo])).
  { intros H0 f.
    unfold recoverStateDB, bind, blockStore_GetBlockchainInfo, ret.
    rewrite Hinfo. simpl. rewrite H0. reflexivity. }
  assert (Hsync : Height info <> 0 ->
    forall l0, blockStore l0 = blockStore l ->
      tm_GetBlockNumFromSavepoint (txtmgmt l0) = (Height info, None) ->
      forall f, recoverStateDB f l0 = (Returned None, l0, recovery_reads)).
  { intros Hne l0 Hbs Hsp f.
    unfold recoverStateDB, bind, blockStore_GetBlockchainInfo,
      txtmgmt_GetBlockNumFromSavepoint, ret.
    rewrite Hbs, Hinfo. simpl.
    destruct (Z.eqb_spec (Height info) 0); [lia|].
    rewrite Hsp. simpl. rewrite Z.eqb_refl. reflexivity. }
  split; [auto|]. split; [auto|].
  split; [apply recoverStateDB_frame|].
  intros Hh Hs Hserve Hfollow l1 t1 Hrun.
  destruct (Z.eqb_spec (Height info) 0) as [H0|Hne].
  { rewrite (Hzero H0) in Hrun. inversion Hrun; subst. auto. }
  revert Hrun.
  unfold recoverStateDB at 1.
  unfold bind, blockStore_GetBlockchainInfo,
    txtmgmt_GetBlockNumFromSavepoint, ret.
  rewrite Hinfo. simpl.
  destruct (Z.eqb_spec (Height info) 0); [lia|].
  destruct (tm_GetBlockNumFromSavepoint (txtmgmt l)) as [s [e|]] eqn:Hsp;
    simpl in *; [discriminate|].
  destruct (Z.eqb_spec s (Height info)) as [->|Hns].
  { intros Hrun. inversion Hrun; subst. by apply Hsync. }
  destruct (Z.gtb_spec s (Height info)); [discriminate|].
  unfold is_uint64 in Hh, Hs.
  rewrite wrap64_succ by lia.
  destruct (recoverLoop fuel (s + 1) (Height info) l) as [[o l'] t'] eqn:Hloop.
  simpl. intros Hrun. inversion Hrun; subst; clear Hrun.
  pose proof (recoverLoop_frame fuel (s + 1) (Height info) l) as [Hbs _].
  rewrite Hloop in Hbs. simpl in Hbs.
  destruct (decide (Height info = MaxUint64)) as [Hmax|Hnmax].
  { exfalso.
    pose proof (recoverLoop_max_never_nil fuel (s + 1) l) as Hnever.
    rewrite <- Hmax, Hloop in Hnever. apply Hnever; [|done].
    unfold is_uint64. lia. }
  destruct (recoverLoop_reaches_height fuel (s + 1) (Height info) l l1 t')
    as [Hsp1 _]; auto; try lia.
  { rewrite Hsp. f_equal. lia. }
Qed.

End Recovery.

(** ** The reference stores meet the contracts *)

Section MemContracts.

Lemma numbered_from_lookup (chain : list Mem.Block) : forall k i b,
  Mem.numbered_from k chain = true ->
  chain !! i = Some b ->
  Mem.Number b = k + Z.of_nat i.
Proof.
  induction chain as [|b0 rest IH]; intros k i b Hn Hi; [done|].
  simpl in Hn. apply andb_prop in Hn as [Hk Hrest].
  destruct i as [|i]; simpl in Hi.
  - inversion Hi; subst. apply Z.eqb_eq in Hk. lia.
  - rewrite (IH (k + 1) i b Hrest Hi). lia.
Qed.

Lemma Mem_serves_blocks_by_number (bs : Mem.BS) :
  Mem.numbered_from 1 (Mem.blocks bs) = true ->
  Z.of_nat (length (Mem.blocks bs)) <= MaxUint64 ->
  serves_blocks_by_number Mem.Number bs (Z.of_nat (length (Mem.blocks bs))).
Proof.
  intros Hn Hlen n r Hrange Hfetch.
  simpl in Hfetch. unfold Mem.RetrieveBlockByNumber in Hfetch.
  replace (if n =? MaxUint64 then Z.of_nat (length (Mem.blocks bs)) else n)
    with n in Hfetch by (destruct (Z.eqb_spec n MaxUint64); lia).
  destruct (Z.leb_spec 1 n); simpl in Hfetch; [|discriminate].
  destruct (n <=? Z.of_nat (length (Mem.blocks bs))); [|discriminate].
  destruct (Mem.blocks bs !! Z.to_nat (n - 1)) as [b|] eqn:Hb;
    [|discriminate].
  inversion Hfetch; subst r. exists b. split; [done|].
  rewrite (numbered_from_lookup _ _ _ _ Hn Hb). lia.
Qed.

Lemma Mem_savepoint_follows_commit :
  savepoint_follows_commit (TM := Mem.TM) Mem.Number.
Proof.
  intros tm tm1 tm2 b vb inv Hvp Hc. simpl in *.
  unfold Mem.ValidateAndPrepare in Hvp.
  destruct (Mem.validateAll false (Mem.db tm) (Mem.Data b) (Mem.Validity b) ∅)
    as [[u flags] invalid].
  inversion Hvp; subst; clear Hvp.
  unfold Mem.Commit in Hc. simpl in Hc. inversion Hc; subst.
  reflexivity.
Qed.

Lemma Mem_savepoint_is_durable :
  savepoint_is_durable (TM := Mem.TM) _ Mem.durable.
Proof.
  intros tm tm' Hd. unfold Mem.durable in Hd. simpl.
  unfold Mem.GetBlockNumFromSavepoint. congruence.
Qed.

Lemma Mem_prepare_is_volatile :
  prepare_is_volatile (TM := Mem.TM) _ Mem.durable.
Proof.
  intros tm b f. simpl. unfold Mem.ValidateAndPrepare.
  destruct b as [b|]; [|done].
  destruct (Mem.validateAll f (Mem.db tm) (Mem.Data b) (Mem.Validity b) ∅)
    as [[u flags] invalid].
  reflexivity.
Qed.

Lemma Mem_rollback_is_volatile :
  rollback_is_volatile (TM := Mem.TM) _ Mem.durable.
Proof. intros tm. reflexivity. Qed.

Lemma Mem_rollback_is_idempotent :
  rollback_is_idempotent (TM := Mem.TM).
Proof. intros tm. reflexivity. Qed.

End MemContracts.

(** ** A live commit on the reference stores *)

Section MemCommit.

(** What the validation pass returns, read off the flags it gives: one
    flag for each transaction, the rejected transactions as the invalid
    list, and the write sets of the accepted ones, in block order, as the
    update set. *)
Lemma validateAll_flags (filterInvalid : bool) (d : gmap string (string * Z)) :
  forall txs prior updates,
    let r := Mem.validateAll filterInvalid d txs prior updates in
    length r.1.2 = length txs
    /\ r.2 = Mem.rejected txs r.1.2
    /\ r.1.1 = foldl Mem.addWriteSetToBatch updates (Mem.accepted txs r.1.2).
Proof.
  induction txs as [|tx rest IH]; intros prior updates; [done|].
  cbn zeta. simpl Mem.validateAll.
  set (valid := if filterInvalid then Mem.validateTx d updates tx
                else hd true prior).
  specialize (IH (tl prior)
                 (if valid then Mem.addWriteSetToBatch updates tx
                  else updates)).
  cbn zeta in IH.
  destruct (Mem.validateAll filterInvalid d rest (tl prior)
              (if valid then Mem.addWriteSetToBatch updates tx else updates))
    as [[u flags] invalid].
  simpl in IH |- *. destruct IH as (Hlen & Hinv & Hu).
  destruct valid; simpl; subst; auto.
Qed.

(** A live validation does not read the annotations the block came
    with. *)
Lemma validateAll_live_ignores_prior (d : gmap string (string * Z)) :
  forall txs prior prior' updates,
    Mem.validateAll true d txs prior updates
    = Mem.validateAll true d txs prior' updates.
Proof.
  induction txs as [|tx rest IH]; intros prior prior' updates; [done|].
  simpl. rewrite (IH (tl prior) (tl prior')). reflexivity.
Qed.

(** A live validation flags a transaction as valid exactly when every key
    it read is still at the version it read, in the committed state and in
    the writes of the transactions accepted before it in the block. *)
Lemma validityFlags_cons (d : gmap string (string * Z)) tx rest :
  hd true (Mem.validityFlags d (tx :: rest)) = Mem.validateTx d ∅ tx.
Proof.
  unfold Mem.validityFlags. simpl.
  destruct (Mem.validateAll true d rest []
              (if Mem.validateTx d ∅ tx then Mem.addWriteSetToBatch ∅ tx
               else ∅)) as [[u flags] invalid].
  reflexivity.
Qed.

(** C4.  On the reference stores, a block that continues the chain is
    validated and prepared with [filterInvalid = true] and then committed.
    The prepare returns, and leaves pending, the caller's block with all
    its transactions and one validity flag for each, and lists the
    rejected transactions.  [Commit] returns nil and appends exactly that
    block, the full original block with its annotations, to the block
    store (and mirrors it to the history store when history is enabled),
    while the state database takes the write sets of the accepted
    transactions only, at the block's number, and the savepoint moves to
    that number. *)
Theorem Commit_stores_original_block (IsHistoryDBEnabled : bool)
    (l : KVLedger Mem.Block Mem.BS Mem.TM Mem.HS) (block : Mem.Block) :
  Mem.Number block = Z.of_nat (length (Mem.blocks (blockStore l))) + 1 ->
  let flags := Mem.validityFlags (Mem.db (txtmgmt l)) (Mem.Data block) in
  let annotated := Mem.mkBlock (Mem.Number block) (Mem.Data block) flags in
  let prepared := RemoveInvalidTransactionsAndPrepare (Some block) l in
  let committed := Commit IsHistoryDBEnabled prepared.1.2 in
  length flags = length (Mem.Data block)
  /\ prepared.1.1
     = Returned (Some annotated, Mem.rejected (Mem.Data block) flags, None)
  /\ prepared.2 = [TxMgr_ValidateAndPrepare (Some block) true]
  /\ pendingBlockToCommit prepared.1.2 = Some annotated
  /\ blockStore prepared.1.2 = blockStore l
  /\ Mem.durable (txtmgmt prepared.1.2) = Mem.durable (txtmgmt l)
  /\ committed.1.1 = Returned None
  /\ committed.2 = commit_calls IsHistoryDBEnabled annotated
  /\ blockStore committed.1.2
     = Mem.mkBS (Mem.blocks (blockStore l) ++ [annotated])
  /\ Mem.db (txtmgmt committed.1.2)
     = Mem.applyUpdates (Mem.db (txtmgmt l))
         (foldl Mem.addWriteSetToBatch ∅
            (Mem.accepted (Mem.Data block) flags))
         (Mem.Number block)
  /\ Mem.savepoint (txtmgmt committed.1.2) = Mem.Number block
  /\ Mem.updateSet (txtmgmt committed.1.2) = None
  /\ historymgmt committed.1.2
     = (if IsHistoryDBEnabled
        then Mem.mkHS (Mem.mirrored (historymgmt l) ++ [annotated])
        else historymgmt l)
  /\ pendingBlockToCommit committed.1.2 = None.
Proof.
  intros Hnum flags annotated.
  pose proof (validateAll_flags true (Mem.db (txtmgmt l)) (Mem.Data block)
                [] ∅) as Hflags.
  cbn zeta in Hflags.
  pose proof (validateAll_live_ignores_prior (Mem.db (txtmgmt l))
                (Mem.Data block) (Mem.Validity block) [] ∅) as Hprior.
  fold (Mem.validityFlags (Mem.db (txtmgmt l)) (Mem.Data block)) in Hflags.
  fold flags in Hflags.
  destruct Hflags as (Hlen & Hinv & Hu).
  destruct l as [bs tm hs p]. simpl in Hnum, Hprior, Hinv, Hu, flags.
  assert (Hprep : RemoveInvalidTransactionsAndPrepare (Some block)
                    (mkKVLedger bs tm hs p)
                  = (Returned (Some annotated,
                               Mem.rejected (Mem.Data block) flags, None),
                     mkKVLedger bs
                       (Mem.mkTM (Mem.db tm) (Mem.savepoint tm)
                          (Some (foldl Mem.addWriteSetToBatch ∅
                                   (Mem.accepted (Mem.Data block) flags),
                                 Mem.Number block)))
                       hs (Some annotated),
                     [TxMgr_ValidateAndPrepare (Some block) true])).
  { unfold_act. simpl. unfold Mem.ValidateAndPrepare. rewrite Hprior.
    subst annotated. unfold flags, Mem.validityFlags in *.
    destruct (Mem.validateAll true (Mem.db tm) (Mem.Data block) [] ∅)
      as [[u fl] invalid].
    simpl in *. subst. reflexivity. }
  cbn zeta. rewrite Hprep. cbn [fst snd].
  assert (Hadd : Mem.AddBlock bs annotated
                 = (Mem.mkBS (Mem.blocks bs ++ [annotated]), None)).
  { unfold Mem.AddBlock. subst annotated. cbn [Mem.Number].
    rewrite (proj2 (Z.eqb_eq _ _) Hnum). reflexivity. }
  unfold_act. simpl. rewrite Hadd. simpl.
  destruct IsHistoryDBEnabled; simpl; repeat split; auto.
Qed.

End MemCommit.

(** ** The theorems on the reference stores *)

Section MemRuns.

Abbreviation info2 :=
  {| Height := 2; CurrentBlockHash := []; PreviousBlockHash := [] |}.

(** The ledger with two stored blocks and an empty state database replays
    blocks 1 and 2. *)
Lemma recoverStateDB_replays_missing_blocks_witness :
  bs_GetBlockchainInfo (blockStore Mem.lagging) = (Some info2, None)
  /\ tm_GetBlockNumFromSavepoint (txtmgmt Mem.lagging) = (0, None)
  /\ fetched (recoverStateDB 2 Mem.lagging).2 = [1; 2]
  /\ (recoverStateDB 2 Mem.lagging).1.1 = Returned None
  /\ tm_GetBlockNumFromSavepoint (txtmgmt (recoverStateDB 2 Mem.lagging).1.2)
     = (2, None).
Proof.
  assert (H0 : is_uint64 0) by (unfold is_uint64, MaxUint64; lia).
  assert (H2 : is_uint64 2) by (unfold is_uint64, MaxUint64; lia).
  pose proof (recoverStateDB_replays_missing_blocks
                2 Mem.lagging info2 None 0 eq_refl eq_refl H0 H2
                ltac:(simpl; lia) ltac:(simpl; lia)) as H.
  cbv zeta in H.
  destruct (replay (blockStore Mem.lagging) (txtmgmt Mem.lagging)
              (seqZ (0 + 1) (Height info2 - 0)))
    as [[err tm'] calls] eqn:Hrep.
  vm_compute in Hrep. injection Hrep as <- <- <-.
  destruct (recoverStateDB 2 Mem.lagging) as [[o l'] t].
  destruct H as (_ & _ & _ & _ & _ & Hok).
  destruct Hok as (-> & -> & Htm & _); [unfold MaxUint64; simpl; lia|].
  simpl. rewrite Htm. repeat split.
Defined.

(** C2 fails on an empty block store: with no block stored and a savepoint
    of 5, [recoverStateDB] returns nil after reading the height alone, and
    [NewKVLedger] returns the ledger. *)
Lemma recoverStateDB_savepoint_ahead_of_empty_store :
  (bs_GetBlockchainInfo (blockStore Mem.aheadOfEmpty)).1
    = Some {| Height := 0; CurrentBlockHash := []; PreviousBlockHash := [] |}
  /\ tm_GetBlockNumFromSavepoint (txtmgmt Mem.aheadOfEmpty) = (5, None)
  /\ 0 < 5
  /\ recoverStateDB 10 Mem.aheadOfEmpty
     = (Returned None, Mem.aheadOfEmpty, [BlockStore_GetBlockchainInfo])
  /\ NewKVLedger 10 (blockStore Mem.aheadOfEmpty) (txtmgmt Mem.aheadOfEmpty)
       (historymgmt Mem.aheadOfEmpty)
     = (Returned (Mem.aheadOfEmpty, None), [BlockStore_GetBlockchainInfo]).
Proof. repeat split. Qed.

(** Two blocks stored and a savepoint of 5: the recovery fails after its
    two reads and [NewKVLedger] panics. *)
Lemma recoverStateDB_savepoint_ahead_witness :
  bs_GetBlockchainInfo (blockStore Mem.ahead) = (Some info2, None)
  /\ Height info2 <> 0
  /\ tm_GetBlockNumFromSavepoint (txtmgmt Mem.ahead) = (5, None)
  /\ Height info2 < 5
  /\ recoverStateDB 10 Mem.ahead =
       (Returned (Some errBehindSavepoint), Mem.ahead, recovery_reads)
  /\ NewKVLedger 10 (blockStore Mem.ahead) (txtmgmt Mem.ahead)
       (historymgmt Mem.ahead) =
       (Panicked ("Error during state DB recovery:" +:+ errBehindSavepoint),
        recovery_reads).
Proof.
  assert (Hinfo : bs_GetBlockchainInfo (blockStore Mem.ahead)
                  = (Some info2, None)) by reflexivity.
  assert (Hne : Height info2 <> 0) by (simpl; lia).
  assert (Hsp : tm_GetBlockNumFromSavepoint (txtmgmt Mem.ahead) = (5, None))
    by reflexivity.
  assert (Hlt : Height info2 < 5) by (simpl; lia).
  pose proof (recoverStateDB_savepoint_ahead 10 Mem.ahead info2 None 5
                Hinfo Hne Hsp Hlt) as [Hrun Hnew].
  exact (conj Hinfo (conj Hne (conj Hsp (conj Hlt (conj Hrun Hnew))))).
Defined.

(** The commit of the prepared [block1] with the history database
    enabled. *)
Lemma Commit_order_witness :
  pendingBlockToCommit Mem.prepared = Some Mem.stored1
  /\ Commit true Mem.prepared =
       (Returned None,
        mkKVLedger (Mem.mkBS [Mem.stored1])
          (Mem.Commit (txtmgmt Mem.prepared)).1
          (Mem.mkHS [Mem.stored1]) None,
        [BlockStore_AddBlock Mem.stored1; TxMgr_Commit;
         HistMgr_Commit Mem.stored1]).
Proof.
  split; [reflexivity|].
  pose proof (Commit_order true Mem.prepared Mem.stored1 eq_refl) as H.
  destruct (Commit true Mem.prepared) as [[o l'] t].
  destruct H as (_ & Hok & _ & Hret).
  specialize (Hret eq_refl eq_refl (fun _ => eq_refl)). subst o.
  destruct (Hok eq_refl) as (-> & Hp & Hbs & Htm & Hhs).
  destruct l' as [bs tm hs p]. simpl in *. subst. reflexivity.
Defined.

(** [Commit] on the fresh ledger. *)
Lemma Commit_idle_panics_witness :
  pendingBlockToCommit Mem.fresh = None
  /\ (Commit true Mem.fresh).1.1 =
       Panicked "Nothing to commit. RemoveInvalidTransactionsAndPrepare() method should have been called and should not have thrown error"
  /\ (Commit true Mem.fresh).1.2 = Mem.fresh
  /\ (Commit true Mem.fresh).2 = [].
Proof.
  rewrite (Commit_idle_panics true Mem.fresh eq_refl). repeat split.
Defined.

(** The commit of a pending block numbered 2 on an empty chain: the block
    store refuses it. *)
Lemma Commit_append_failure_witness :
  pendingBlockToCommit Mem.preparedOutOfSequence = Some Mem.block2OnFresh
  /\ bs_AddBlock (blockStore Mem.preparedOutOfSequence) Mem.block2OnFresh
     = (Mem.mkBS [], Some "block number out of sequence")
  /\ Commit true Mem.preparedOutOfSequence =
       (Returned (Some "block number out of sequence"),
        mkKVLedger (Mem.mkBS []) (txtmgmt Mem.preparedOutOfSequence)
          (historymgmt Mem.preparedOutOfSequence) (Some Mem.block2OnFresh),
        [BlockStore_AddBlock Mem.block2OnFresh]).
Proof.
  assert (Hp : pendingBlockToCommit Mem.preparedOutOfSequence
               = Some Mem.block2OnFresh) by reflexivity.
  assert (Ha : bs_AddBlock (blockStore Mem.preparedOutOfSequence)
                 Mem.block2OnFresh
               = (Mem.mkBS [], Some "block number out of sequence"))
    by reflexivity.
  split; [exact Hp|]. split; [exact Ha|].
  apply (Commit_append_failure true Mem.preparedOutOfSequence
           Mem.block2OnFresh (Mem.mkBS []) "block number out of sequence"
           Hp Ha).
Defined.

(** [block1], whose second transaction conflicts with the first, prepared
    and committed on the fresh ledger: the block store holds all three
    transactions, the second tagged invalid, which is not the block
    without it; the state holds the writes of the first and the third
    transaction and none of the second. *)
Lemma Commit_stores_original_block_witness :
  Mem.Number Mem.block1
    = Z.of_nat (length (Mem.blocks (blockStore Mem.fresh))) + 1
  /\ Mem.validityFlags (Mem.db (txtmgmt Mem.fresh)) (Mem.Data Mem.block1)
     = [true; false; true]
  /\ (RemoveInvalidTransactionsAndPrepare (Some Mem.block1) Mem.fresh).1.1
     = Returned (Some Mem.stored1, [Mem.tx2], None)
  /\ (Commit true Mem.prepared).1.1 = Returned None
  /\ blockStore (Commit true Mem.prepared).1.2 = Mem.mkBS [Mem.stored1]
  /\ Mem.Data Mem.stored1 = [Mem.tx1; Mem.tx2; Mem.tx3]
  /\ Mem.stored1 <> Mem.mkBlock 1 [Mem.tx1; Mem.tx3] [true; true]
  /\ Mem.db (txtmgmt (Commit true Mem.prepared).1.2)
     = Mem.applyUpdates ∅
         (foldl Mem.addWriteSetToBatch ∅ [Mem.tx1; Mem.tx3]) 1
  /\ Mem.db (txtmgmt (Commit true Mem.prepared).1.2) !! "alice"
     = Some ("90", 1)
  /\ Mem.db (txtmgmt (Commit true Mem.prepared).1.2) !! "carol" = None
  /\ Mem.savepoint (txtmgmt (Commit true Mem.prepared).1.2) = 1.
Proof.
  assert (Hnum : Mem.Number Mem.block1
                 = Z.of_nat (length (Mem.blocks (blockStore Mem.fresh))) + 1)
    by reflexivity.
  assert (Hfl : Mem.validityFlags (Mem.db (txtmgmt Mem.fresh))
                  (Mem.Data Mem.block1) = [true; false; true])
    by (vm_compute; reflexivity).
  pose proof (Commit_stores_original_block true Mem.fresh Mem.block1 Hnum)
    as H.
  cbn zeta in H. fold Mem.prepared in H. rewrite Hfl in H.
  destruct H as (_ & Hret & _ & _ & _ & _ & Hcommit & _ & Hbs & Hdb & Hsp & _).
  assert (Hne : Mem.stored1 <> Mem.mkBlock 1 [Mem.tx1; Mem.tx3] [true; true])
    by discriminate.
  assert (Halice : Mem.db (txtmgmt (Commit true Mem.prepared).1.2) !! "alice"
                   = Some ("90", 1))
    by (rewrite Hdb; vm_compute; reflexivity).
  assert (Hcarol : Mem.db (txtmgmt (Commit true Mem.prepared).1.2) !! "carol"
                   = None)
    by (rewrite Hdb; vm_compute; reflexivity).
  exact (conj Hnum (conj Hfl (conj Hret (conj Hcommit (conj Hbs
          (conj eq_refl (conj Hne (conj Hdb (conj Halice (conj Hcarol
          Hsp)))))))))).
Defined.

(** The prepare of [block1] on the fresh ledger, rolled back, gives the
    fresh ledger again, and so does a rollback of the fresh ledger. *)
Lemma Rollback_discards_prepare_witness :
  (Rollback Mem.prepared).1.2 = Mem.fresh
  /\ (Rollback Mem.prepared).2 = [TxMgr_Rollback]
  /\ Rollback Mem.fresh = (Returned tt, Mem.fresh, [TxMgr_Rollback]).
Proof.
  pose proof (Rollback_discards_prepare Mem.durable Mem.fresh
                (Some Mem.block1)
                Mem_savepoint_is_durable Mem_prepare_is_volatile
                Mem_rollback_is_volatile Mem_rollback_is_idempotent) as H.
  destruct (RemoveInvalidTransactionsAndPrepare (Some Mem.block1) Mem.fresh)
    as [[o1 l1] t1] eqn:Hprep.
  assert (l1 = Mem.prepared) as ->
    by (unfold Mem.prepared; rewrite Hprep; reflexivity).
  destruct (Rollback Mem.prepared) as [[o2 l2] t2].
  destruct H as (_ & -> & Htm & Hp & Hbs & Hhs & _ & _ & _ & Hagain).
  assert (l2 = Mem.fresh) as ->.
  { destruct l2 as [bs tm hs p]. simpl in *. subst. reflexivity. }
  repeat split; exact Hagain.
Defined.

(** The lagging ledger recovered, then recovered once more. *)
Lemma recoverStateDB_idempotent_witness :
  bs_GetBlockchainInfo (blockStore Mem.lagging) = (Some info2, None)
  /\ (recoverStateDB 2 Mem.lagging).1.1 = Returned None
  /\ recoverStateDB 0 (recoverStateDB 2 Mem.lagging).1.2 =
       (Returned None, (recoverStateDB 2 Mem.lagging).1.2, recovery_reads).
Proof.
  assert (Hinfo : bs_GetBlockchainInfo (blockStore Mem.lagging)
                  = (Some info2, None)) by reflexivity.
  split; [exact Hinfo|]. split; [reflexivity|].
  destruct (recoverStateDB_idempotent Mem.Number 2 Mem.lagging info2 None
              Hinfo) as (_ & _ & _ & H).
  assert (H0 : is_uint64 0) by (unfold is_uint64, MaxUint64; lia).
  assert (H2 : is_uint64 2) by (unfold is_uint64, MaxUint64; lia).
  assert (Hserve : serves_blocks_by_number Mem.Number
                     (blockStore Mem.lagging) (Height info2)).
  { apply (Mem_serves_blocks_by_number (blockStore Mem.lagging));
      [reflexivity|unfold MaxUint64; simpl; lia]. }
  assert (Hrun : recoverStateDB 2 Mem.lagging =
                 (Returned None, (recoverStateDB 2 Mem.lagging).1.2,
                  (recoverStateDB 2 Mem.lagging).2))
    by (vm_compute; reflexivity).
  exact (H H2 H0 Hserve Mem_savepoint_follows_commit _ _ Hrun 0%nat).
Defined.

(** The scenarios of a restart: over empty stores nothing but the height is
    read; with two blocks stored and the savepoint at 1, block 2 alone is
    replayed. *)
Example NewKVLedger_fresh :
  NewKVLedger 0 (Mem.mkBS []) Mem.emptyTM (Mem.mkHS [])
  = (Returned (Mem.fresh, None), [BlockStore_GetBlockchainInfo]).
Proof. reflexivity. Qed.

Example recoverStateDB_lagging_by_one :
  (recoverStateDB 1
     (mkKVLedger (Mem.mkBS [Mem.stored1; Mem.stored2]) (Mem.mkTM ∅ 1 None)
        (Mem.mkHS []) None)).2
  = [BlockStore_GetBlockchainInfo; TxMgr_GetBlockNumFromSavepoint;
     BlockStore_RetrieveBlockByNumber 2;
     TxMgr_ValidateAndPrepare (Some Mem.stored2) false;
     TxMgr_Commit].
Proof. reflexivity. Qed.

(** At the height [MaxUint64] the loop counter wraps to 0 after the last
    height and the loop goes on: with fuel for three iterations the fetches
    are [MaxUint64], 0 and 1, and the loop has not ended. *)
Example recoverStateDB_wraps_at_MaxUint64 :
  (recoverStateDB (blockStoreI := Mem.fullStore) 3 Mem.nearlyFull).1.1
  = OutOfFuel
  /\ fetched (recoverStateDB (blockStoreI := Mem.fullStore) 3 Mem.nearlyFull).2
     = [MaxUint64; 0; 1].
Proof. split; reflexivity. Qed.

(** C9, at the failing input.  Over a block store whose
    GetBlockchainInfo returns its summary together with an error, the
    error is dropped: [recoverStateDB] replays blocks 1 and 2 and returns
    nil, and [NewKVLedger] returns the ledger. *)
Lemma recoverStateDB_drops_info_error :
  bs_GetBlockchainInfo (BlockStore := Mem.failingInfoStore)
    (blockStore Mem.lagging)
    = (Some info2, Some "blockchain info unavailable")
  /\ (recoverStateDB (blockStoreI := Mem.failingInfoStore) 2 Mem.lagging).1.1
     = Returned None
  /\ fetched (recoverStateDB (blockStoreI := Mem.failingInfoStore) 2 Mem.lagging).2
     = [1; 2]
  /\ exists l,
       (NewKVLedger (blockStoreI := Mem.failingInfoStore) 2 (blockStore Mem.lagging)
          (txtmgmt Mem.lagging) (historymgmt Mem.lagging)).1
       = Returned (l, None).
Proof.
  repeat split. eexists. reflexivity.
Qed.

End MemRuns.

(** * Further properties *)

(** ** The configuration *)

Section Configuration.

Lemma string_app_cons c s t : String c s +:+ t = String c (s +:+ t).
Proof. reflexivity. Qed.

Lemma string_length_app s t :
  String.length (s +:+ t) = (String.length s + String.length t)%nat.
Proof.
  induction s as [|c s IH]; [done|].
  rewrite string_app_cons. simpl. by rewrite IH.
Qed.

Lemma string_app_assoc s t u : (s +:+ t) +:+ u = s +:+ (t +:+ u).
Proof.
  induction s as [|c s IH]; [done|]. by rewrite !string_app_cons, IH.
Qed.

Lemma substring_whole t : String.substring 0 (String.length t) t = t.
Proof. induction t as [|c t IH]; simpl; [done|]. by rewrite IH. Qed.

Lemma substring_app_suffix s t :
  String.substring (String.length s) (String.length t) (s +:+ t) = t.
Proof.
  induction s as [|c s IH]; [apply substring_whole|].
  rewrite string_app_cons. exact IH.
Qed.

Lemma HasSuffix_app s suffix : HasSuffix (s +:+ suffix) suffix = true.
Proof.
  unfold HasSuffix. rewrite string_length_app.
  replace (String.length s + String.length suffix - String.length suffix)%nat
    with (String.length s) by lia.
  rewrite substring_app_suffix, String.eqb_refl, andb_true_r.
  apply Nat.leb_le. lia.
Qed.

(** A path is normalised by its trailing slash: a path that does not end
    in a slash gives the configuration of that path followed by one. *)
Theorem NewConf_trailing_slash filesystemPath size :
  HasSuffix filesystemPath "/" = false ->
  NewConf (filesystemPath +:+ "/") size
  = NewConf filesystemPath size.
Proof.
  intros Hno. unfold NewConf. rewrite HasSuffix_app, Hno. reflexivity.
Qed.

(** The two directories of a configuration lie under one base that is the
    path itself or the path followed by a slash, and ends in a slash; they
    are the base followed by [blocks] and by [txMgmgt/db], and neither is
    the other or lies under the other; the file size is the one given. *)
Theorem NewConf_directories filesystemPath size :
  exists base,
    (base = filesystemPath \/ base = filesystemPath +:+ "/")
    /\ HasSuffix base "/" = true
    /\ blockStorageDir (NewConf filesystemPath size)
       = base +:+ "blocks"
    /\ txMgrDBPath (NewConf filesystemPath size)
       = base +:+ "txMgmgt/db"
    /\ maxBlockfileSize (NewConf filesystemPath size) = size
    /\ (forall rest,
          blockStorageDir (NewConf filesystemPath size) +:+ rest
          <> txMgrDBPath (NewConf filesystemPath size))
    /\ (forall rest,
          txMgrDBPath (NewConf filesystemPath size) +:+ rest
          <> blockStorageDir (NewConf filesystemPath size)).
Proof.
  unfold NewConf.
  destruct (HasSuffix filesystemPath "/") eqn:Hs; simpl.
  - exists filesystemPath. repeat split; auto.
    + intros rest Heq. rewrite string_app_assoc in Heq.
      apply (inj (String.append filesystemPath)) in Heq. discriminate.
    + intros rest Heq. rewrite string_app_assoc in Heq.
      apply (inj (String.append filesystemPath)) in Heq. discriminate.
  - exists (filesystemPath +:+ "/").
    repeat split; auto using HasSuffix_app.
    + intros rest Heq. rewrite string_app_assoc in Heq.
      apply (inj (String.append (filesystemPath +:+ "/"))) in Heq.
      discriminate.
    + intros rest Heq. rewrite string_app_assoc in Heq.
      apply (inj (String.append (filesystemPath +:+ "/"))) in Heq.
      discriminate.
Qed.

End Configuration.

(** ** Construction and recovery *)

Section Construction.
Context {Block InvalidTransaction BS TM HS : Type}.
Context {blockStoreI : BlockStore Block BS}
        {txMgrI : TxMgr Block InvalidTransaction TM}
        {histMgrI : HistMgr Block HS}.

Implicit Types l : KVLedger Block BS TM HS.

(** A loop that runs to its end has cleared the pending block. *)
Lemma recoverLoop_nil_clears_pending fuel : forall bn h l l1 t,
  recoverLoop fuel bn h l = (Returned None, l1, t) ->
  pendingBlockToCommit l1 = None.
Proof.
  induction fuel as [|fuel IH]; intros bn h l l1 t Hrun.
  - destruct (Z.le_gt_cases bn h).
    + rewrite recoverLoop_no_fuel in Hrun by done. discriminate.
    + rewrite recoverLoop_exit in Hrun by lia. by inversion Hrun.
  - destruct (Z.le_gt_cases bn h).
    + rewrite recoverLoop_step in Hrun by done.
      destruct (bs_RetrieveBlockByNumber (blockStore l) bn) as [p [e|]];
        [discriminate|].
      destruct (tm_ValidateAndPrepare (txtmgmt l) p false)
        as [tm1 [[vb inv] [e|]]]; [discriminate|].
      destruct (tm_Commit tm1) as [tm2 [e|]]; [discriminate|].
      destruct (recoverLoop fuel (wrap64 (bn + 1)) h _)
        as [[o l'] t'] eqn:Hrest.
      inversion Hrun; subst. by eapply IH.
    + rewrite recoverLoop_exit in Hrun by lia. by inversion Hrun.
Qed.

(** A recovery that returns nil on an idle ledger leaves it idle. *)
Lemma recoverStateDB_nil_idle fuel l l1 t :
  pendingBlockToCommit l = None ->
  recoverStateDB fuel l = (Returned None, l1, t) ->
  pendingBlockToCommit l1 = None.
Proof.
  intros Hidle.
  unfold recoverStateDB, bind, blockStore_GetBlockchainInfo,
    txtmgmt_GetBlockNumFromSavepoint, ret, panic.
  destruct (bs_GetBlockchainInfo (blockStore l)) as [[info|] ierr]; simpl;
    [|discriminate].
  destruct (Height info =? 0); [intros Heq; by inversion Heq; subst|].
  destruct (tm_GetBlockNumFromSavepoint (txtmgmt l)) as [s [e|]]; simpl;
    [discriminate|].
  destruct (s =? Height info); [intros Heq; by inversion Heq; subst|].
  destruct (s >? Height info); [discriminate|].
  destruct (recoverLoop fuel (wrap64 (s + 1)) (Height info) l)
    as [[o l'] t'] eqn:Hloop.
  intros Heq. inversion Heq; subst.
  by eapply recoverLoop_nil_clears_pending.
Qed.

(** [NewKVLedger] never returns an error: what it returns is a ledger and
    nil.  That ledger has no pending block, so a [Commit] on it panics
    without a call; its block store and history manager are the ones that
    were opened. *)
Theorem NewKVLedger_returns_idle_ledger fuel bs tm hs l err t :
  NewKVLedger fuel bs tm hs = (Returned (l, err), t) ->
  err = None
  /\ pendingBlockToCommit l = None
  /\ blockStore l = bs
  /\ historymgmt l = hs
  /\ forall IsHistoryDBEnabled,
       Commit IsHistoryDBEnabled l = (Panicked errNothingToCommit, l, []).
Proof.
  unfold NewKVLedger.
  pose proof (recoverStateDB_frame fuel (mkKVLedger bs tm hs None))
    as [Hbs Hhs].
  destruct (recoverStateDB fuel (mkKVLedger bs tm hs None))
    as [[o l'] t'] eqn:Hrun.
  destruct o as [[e|]|msg|]; try discriminate.
  intros Heq. inversion Heq; subst; clear Heq.
  assert (Hidle : pendingBlockToCommit l = None)
    by (eapply recoverStateDB_nil_idle; [|exact Hrun]; reflexivity).
  simpl in *. repeat split; auto.
  intros H. unfold Commit, bind, get_pendingBlockToCommit, panic.
  rewrite Hidle. reflexivity.
Qed.

(** When the savepoint of a non-empty ledger cannot be read,
    [recoverStateDB] returns the error of the read after its two reads and
    leaves the ledger as it was; [NewKVLedger] panics with that error. *)
Theorem recoverStateDB_savepoint_unreadable fuel l info ierr s e :
  bs_GetBlockchainInfo (blockStore l) = (Some info, ierr) ->
  Height info <> 0 ->
  tm_GetBlockNumFromSavepoint (txtmgmt l) = (s, Some e) ->
  recoverStateDB fuel l = (Returned (Some e), l, recovery_reads)
  /\ NewKVLedger fuel (blockStore l) (txtmgmt l) (historymgmt l) =
       (Panicked ("Error during state DB recovery:" +:+ e), recovery_reads).
Proof.
  intros Hinfo Hne Hsp.
  assert (Hrun : forall l0,
    blockStore l0 = blockStore l -> txtmgmt l0 = txtmgmt l ->
    recoverStateDB fuel l0 = (Returned (Some e), l0, recovery_reads)).
  { intros l0 Hbs Htm.
    unfold recoverStateDB, bind, blockStore_GetBlockchainInfo,
      txtmgmt_GetBlockNumFromSavepoint, ret.
    rewrite Hbs, Hinfo. simpl.
    destruct (Z.eqb_spec (Height info) 0); [lia|].
    rewrite Htm, Hsp. reflexivity. }
  split; [by apply Hrun|].
  unfold NewKVLedger. by rewrite Hrun.
Qed.

(** When the block store answers GetBlockchainInfo with nil,
    [recoverStateDB] panics on the nil dereference after that one call,
    whatever error came with the nil, and so does [NewKVLedger]. *)
Theorem recoverStateDB_nil_info_panics fuel l ierr :
  bs_GetBlockchainInfo (blockStore l) = (None, ierr) ->
  recoverStateDB fuel l =
    (Panicked nil_dereference, l, [BlockStore_GetBlockchainInfo])
  /\ NewKVLedger fuel (blockStore l) (txtmgmt l) (historymgmt l) =
       (Panicked nil_dereference, [BlockStore_GetBlockchainInfo]).
Proof.
  intros Hinfo.
  assert (Hrun : forall l0,
    blockStore l0 = blockStore l ->
    recoverStateDB fuel l0 =
      (Panicked nil_dereference, l0, [BlockStore_GetBlockchainInfo])).
  { intros l0 Hbs.
    unfold recoverStateDB, bind, blockStore_GetBlockchainInfo, panic.
    rewrite Hbs, Hinfo. reflexivity. }
  split; [by apply Hrun|].
  unfold NewKVLedger. by rewrite Hrun.
Qed.

Lemma recoverLoop_only_recovery_calls fuel : forall bn h l,
  forallb is_recovery_call (recoverLoop fuel bn h l).2 = true.
Proof.
  induction fuel as [|fuel IH]; intros bn h l.
  - destruct (Z.le_gt_cases bn h).
    + by rewrite recoverLoop_no_fuel.
    + by rewrite recoverLoop_exit by lia.
  - destruct (Z.le_gt_cases bn h).
    + rewrite recoverLoop_step by done.
      destruct (bs_RetrieveBlockByNumber (blockStore l) bn) as [p [e|]];
        [done|].
      destruct (tm_ValidateAndPrepare (txtmgmt l) p false)
        as [tm1 [[vb inv] [e|]]]; [done|].
      destruct (tm_Commit tm1) as [tm2 [e|]]; [done|].
      specialize (IH (wrap64 (bn + 1)) h
                     (mkKVLedger (blockStore l) tm2 (historymgmt l) p)).
      destruct (recoverLoop fuel _ h _) as [[o l'] t]. exact IH.
    + by rewrite recoverLoop_exit by lia.
Qed.

(** Whatever the stores answer and however it ends, a recovery makes no
    other calls than its two reads, fetches of blocks, prepares without
    filtering and commits of the state manager: it never appends to the
    block store, never rolls back, never calls the history manager and
    never prepares with [filterInvalid = true]. *)
Theorem recoverStateDB_only_recovery_calls fuel l :
  forallb is_recovery_call (recoverStateDB fuel l).2 = true.
Proof.
  unfold recoverStateDB, bind, blockStore_GetBlockchainInfo,
    txtmgmt_GetBlockNumFromSavepoint, ret, panic.
  destruct (bs_GetBlockchainInfo (blockStore l)) as [[info|] ierr]; simpl;
    [|done].
  destruct (Height info =? 0); [done|].
  destruct (tm_GetBlockNumFromSavepoint (txtmgmt l)) as [s [e|]]; simpl;
    [done|].
  destruct (s =? Height info); [done|].
  destruct (s >? Height info); [done|].
  pose proof (recoverLoop_only_recovery_calls fuel (wrap64 (s + 1))
                (Height info) l) as Hloop.
  destruct (recoverLoop fuel (wrap64 (s + 1)) (Height info) l)
    as [[o l'] t].
  exact Hloop.
Qed.

Lemma length_replay_calls (bs : BS) heights :
  length (replay_calls bs heights)
  = (3 * length heights)%nat.
Proof.
  induction heights as [|n rest IH]; [done|].
  unfold replay_calls in *. simpl. rewrite IH. lia.
Qed.

(** Below the largest height a recovery ends: with fuel for the missing
    heights it returns or panics, and it makes at most two calls plus three
    for each missing height. *)
Theorem recoverStateDB_terminates fuel l info ierr s serr :
  bs_GetBlockchainInfo (blockStore l) = (Some info, ierr) ->
  tm_GetBlockNumFromSavepoint (txtmgmt l) = (s, serr) ->
  is_uint64 s ->
  Height info < MaxUint64 ->
  (Z.to_nat (Height info - s) <= fuel)%nat ->
  (recoverStateDB fuel l).1.1 <> OutOfFuel
  /\ (length (recoverStateDB fuel l).2
      <= 2 + 3 * Z.to_nat (Height info - s))%nat.
Proof.
  intros Hinfo Hsp Hs Hh Hfuel. unfold is_uint64 in Hs.
  unfold recoverStateDB, bind, blockStore_GetBlockchainInfo,
    txtmgmt_GetBlockNumFromSavepoint, ret.
  rewrite Hinfo. simpl.
  destruct (Z.eqb_spec (Height info) 0); [simpl; split; [done|lia]|].
  rewrite Hsp. simpl.
  destruct serr as [e|]; [simpl; split; [done|lia]|].
  destruct (Z.eqb_spec s (Height info)); [simpl; split; [done|lia]|].
  destruct (Z.gtb_spec s (Height info)); [simpl; split; [done|lia]|].
  rewrite wrap64_succ by lia.
  set (k := Z.to_nat (Height info - s)) in *.
  assert (Hn : Z.of_nat k = Height info - s) by (unfold k; lia).
  destruct (replay (blockStore l) (txtmgmt l) (seqZ (s + 1) (Z.of_nat k)))
    as [[err tm'] calls] eqn:Hrep.
  destruct (replay_in_order _ _ _ _ _ _ Hrep) as [Hpre _].
  apply prefix_length in Hpre.
  rewrite length_replay_calls, length_seqZ, Nat2Z.id in Hpre.
  destruct (recoverLoop_replay k (fuel - k) (s + 1) (Height info) l
              err tm' calls) as [p Hloop];
    [unfold is_uint64; lia|lia|lia|exact Hrep|].
  replace (k + (fuel - k))%nat with fuel in Hloop by lia.
  rewrite Hloop.
  destruct err as [e|]; [simpl; split; [done|lia]|].
  rewrite Hn.
  replace (s + 1 + (Height info - s)) with (Height info + 1) by lia.
  rewrite wrap64_succ by lia.
  rewrite recoverLoop_exit by lia. simpl.
  rewrite app_nil_r. split; [done|lia].
Qed.

(** At the largest height a recovery that has blocks to replay never
    returns nil, whatever the fuel: the loop counter wraps to 0 after the
    last height, so only a failing step ends the loop. *)
Theorem recoverStateDB_never_nil_at_MaxUint64 fuel l info ierr s :
  bs_GetBlockchainInfo (blockStore l) = (Some info, ierr) ->
  Height info = MaxUint64 ->
  tm_GetBlockNumFromSavepoint (txtmgmt l) = (s, None) ->
  is_uint64 s ->
  s < MaxUint64 ->
  (recoverStateDB fuel l).1.1 <> Returned None.
Proof.
  intros Hinfo Hmax Hsp Hs Hlt. unfold is_uint64 in Hs.
  unfold recoverStateDB, bind, blockStore_GetBlockchainInfo,
    txtmgmt_GetBlockNumFromSavepoint, ret.
  rewrite Hinfo. simpl.
  destruct (Z.eqb_spec (Height info) 0); [unfold MaxUint64 in *; lia|].
  rewrite Hsp. simpl. rewrite Hmax.
  destruct (Z.eqb_spec s MaxUint64); [lia|].
  destruct (Z.gtb_spec s MaxUint64); [lia|].
  pose proof (recoverLoop_max_never_nil fuel (wrap64 (s + 1)) l
                (wrap64_is_uint64 _)) as Hnever.
  destruct (recoverLoop fuel (wrap64 (s + 1)) MaxUint64 l) as [[o l'] t].
  exact Hnever.
Qed.

(** [block.Header.Number] *)
Variable Number : Block -> Z.

(** Over a block store that serves its blocks by number and a state
    manager whose savepoint follows its commits, a recovery of a non-empty
    ledger that returns nil leaves the savepoint at the height of the block
    store, which it has not changed. *)
Theorem recoverStateDB_brings_savepoint_to_height fuel l info ierr l1 t :
  bs_GetBlockchainInfo (blockStore l) = (Some info, ierr) ->
  Height info <> 0 ->
  is_uint64 (Height info) ->
  is_uint64 (fst (tm_GetBlockNumFromSavepoint (txtmgmt l))) ->
  serves_blocks_by_number Number (blockStore l) (Height info) ->
  savepoint_follows_commit Number ->
  recoverStateDB fuel l = (Returned None, l1, t) ->
  tm_GetBlockNumFromSavepoint (txtmgmt l1) = (Height info, None)
  /\ bs_GetBlockchainInfo (blockStore l1) = (Some info, ierr).
Proof.
  intros Hinfo Hne Hh Hs Hserve Hfollow Hrun.
  pose proof (recoverStateDB_frame fuel l) as [Hbs _].
  rewrite Hrun in Hbs. simpl in Hbs.
  split; [|by rewrite Hbs].
  revert Hrun.
  unfold recoverStateDB, bind, blockStore_GetBlockchainInfo,
    txtmgmt_GetBlockNumFromSavepoint, ret.
  rewrite Hinfo. simpl.
  destruct (Z.eqb_spec (Height info) 0); [lia|].
  destruct (tm_GetBlockNumFromSavepoint (txtmgmt l)) as [s [e|]] eqn:Hsp;
    simpl in *; [discriminate|].
  destruct (Z.eqb_spec s (Height info)) as [->|Hns].
  { intros Hrun. inversion Hrun; subst. exact Hsp. }
  destruct (Z.gtb_spec s (Height info)); [discriminate|].
  unfold is_uint64 in Hh, Hs.
  rewrite wrap64_succ by lia.
  destruct (recoverLoop fuel (s + 1) (Height info) l) as [[o l'] t'] eqn:Hloop.
  simpl. intros Hrun. inversion Hrun; subst; clear Hrun.
  destruct (decide (Height info = MaxUint64)) as [Hmax|Hnmax].
  { exfalso.
    pose proof (recoverLoop_max_never_nil fuel (s + 1) l) as Hnever.
    rewrite <- Hmax, Hloop in Hnever. apply Hnever; [|done].
    unfold is_uint64. lia. }
  destruct (recoverLoop_reaches_height Number fuel (s + 1) (Height info)
              l l1 t') as [Hsp1 _]; auto; try lia.
  rewrite Hsp. f_equal. lia.
Qed.

End Construction.

(** ** The error paths of the protocol *)

Section ProtocolErrors.
Context {Block InvalidTransaction BS TM HS : Type}.
Context {blockStoreI : BlockStore Block BS}
        {txMgrI : TxMgr Block InvalidTransaction TM}
        {histMgrI : HistMgr Block HS}.
Variable IsHistoryDBEnabled : bool.

Implicit Types l : KVLedger Block BS TM HS.

(** When the commit of the state manager fails after the block was
    appended, [Commit] panics with that error: the block store holds the
    appended block, the history manager was not called, and the pending
    block is still in place. *)
Theorem Commit_state_failure_panics l block bs1 tm1 e :
  pendingBlockToCommit l = Some block ->
  bs_AddBlock (blockStore l) block = (bs1, None) ->
  tm_Commit (txtmgmt l) = (tm1, Some e) ->
  Commit IsHistoryDBEnabled l =
    (Panicked ("Error during commit to txmgr:" +:+ e),
     mkKVLedger bs1 tm1 (historymgmt l) (Some block),
     [BlockStore_AddBlock block; TxMgr_Commit]).
Proof.
  intros Hp Ha Hc. unfold_act. rewrite Hp. simpl. rewrite Ha. simpl.
  rewrite Hc. simpl. rewrite Hp. reflexivity.
Qed.

(** When the history database is enabled and the commit of the history
    manager fails, [Commit] panics with that error after the block was
    appended and the state committed, and the pending block is still in
    place. *)
Theorem Commit_history_failure_panics l block bs1 tm1 hs1 e :
  IsHistoryDBEnabled = true ->
  pendingBlockToCommit l = Some block ->
  bs_AddBlock (blockStore l) block = (bs1, None) ->
  tm_Commit (txtmgmt l) = (tm1, None) ->
  hist_Commit (historymgmt l) block = (hs1, Some e) ->
  Commit IsHistoryDBEnabled l =
    (Panicked ("Error during commit to txthistory:" +:+ e),
     mkKVLedger bs1 tm1 hs1 (Some block),
     [BlockStore_AddBlock block; TxMgr_Commit; HistMgr_Commit block]).
Proof.
  intros Hen Hp Ha Hc Hh. unfold_act. rewrite Hp, Hen. simpl.
  rewrite Ha. simpl. rewrite Hc. simpl. rewrite Hh. simpl.
  rewrite Hp. reflexivity.
Qed.

(** A pending block is committed once: after a [Commit] that returned nil,
    a second [Commit] panics without a call and leaves the ledger as the
    first one left it. *)
Theorem Commit_twice_panics l l1 t :
  Commit IsHistoryDBEnabled l = (Returned None, l1, t) ->
  Commit IsHistoryDBEnabled l1 = (Panicked errNothingToCommit, l1, []).
Proof.
  intros Hrun.
  assert (Hidle : pendingBlockToCommit l1 = None).
  { revert Hrun. unfold_act.
    destruct (pendingBlockToCommit l) as [block|]; [|discriminate]. simpl.
    destruct (bs_AddBlock (blockStore l) block) as [bs1 [e1|]]; simpl;
      [discriminate|].
    destruct (tm_Commit (txtmgmt l)) as [tm1 [e2|]]; simpl; [discriminate|].
    destruct IsHistoryDBEnabled; simpl.
    - destruct (hist_Commit (historymgmt l) block) as [hs1 [e3|]]; simpl;
        [discriminate|].
      intros Heq. by inversion Heq.
    - intros Heq. by inversion Heq. }
  unfold Commit, bind, get_pendingBlockToCommit, panic.
  rewrite Hidle. reflexivity.
Qed.

(** After a [Rollback], whatever the ledger was, a [Commit] panics without
    a call; the rollback has left the block store and the history manager
    as they were. *)
Theorem Commit_after_Rollback_panics l :
  blockStore (Rollback l).1.2 = blockStore l
  /\ historymgmt (Rollback l).1.2 = historymgmt l
  /\ Commit IsHistoryDBEnabled (Rollback l).1.2 =
       (Panicked errNothingToCommit, (Rollback l).1.2, []).
Proof. repeat split. Qed.

(** A prepare that fails changes nothing in the ledger but the state
    manager: the error is returned with what the state manager returned,
    and the pending block, if there was one from an earlier prepare, is
    still the pending block. *)
Theorem RemoveInvalidTransactionsAndPrepare_failure_keeps_pending
    l block tm1 validBlock invalidTxs e :
  tm_ValidateAndPrepare (txtmgmt l) block true =
    (tm1, (validBlock, invalidTxs, Some e)) ->
  RemoveInvalidTransactionsAndPrepare block l =
    (Returned (validBlock, invalidTxs, Some e),
     mkKVLedger (blockStore l) tm1 (historymgmt l) (pendingBlockToCommit l),
     [TxMgr_ValidateAndPrepare block true]).
Proof.
  intros Hvp. unfold_act. rewrite Hvp. reflexivity.
Qed.

End ProtocolErrors.

(** ** The further properties on the reference stores *)

Section MoreMemRuns.

Lemma NewConf_trailing_slash_witness :
  HasSuffix "/var/ledger" "/" = false
  /\ NewConf "/var/ledger/" 64 = NewConf "/var/ledger" 64.
Proof.
  assert (Hno : HasSuffix "/var/ledger" "/" = false) by reflexivity.
  exact (conj Hno (NewConf_trailing_slash "/var/ledger" 64 Hno)).
Defined.

Lemma NewKVLedger_returns_idle_ledger_witness :
  NewKVLedger 2 (blockStore Mem.lagging) (txtmgmt Mem.lagging)
    (historymgmt Mem.lagging)
  = (Returned ((recoverStateDB 2 Mem.lagging).1.2, None),
     (recoverStateDB 2 Mem.lagging).2)
  /\ pendingBlockToCommit (recoverStateDB 2 Mem.lagging).1.2 = None
  /\ blockStore (recoverStateDB 2 Mem.lagging).1.2 = blockStore Mem.lagging.
Proof.
  assert (Hnew : NewKVLedger 2 (blockStore Mem.lagging) (txtmgmt Mem.lagging)
                   (historymgmt Mem.lagging)
                 = (Returned ((recoverStateDB 2 Mem.lagging).1.2, None),
                    (recoverStateDB 2 Mem.lagging).2))
    by (vm_compute; reflexivity).
  pose proof (NewKVLedger_returns_idle_ledger _ _ _ _ _ _ _ Hnew)
    as (_ & Hidle & Hbs & _).
  exact (conj Hnew (conj Hidle Hbs)).
Defined.

Lemma recoverStateDB_savepoint_unreadable_witness :
  tm_GetBlockNumFromSavepoint (TxMgr := Faulty.unreadableSavepoint)
    (txtmgmt Mem.lagging) = (0, Some "savepoint unreadable")
  /\ recoverStateDB (txMgrI := Faulty.unreadableSavepoint) 2 Mem.lagging
     = (Returned (Some "savepoint unreadable"), Mem.lagging, recovery_reads).
Proof.
  assert (Hinfo : bs_GetBlockchainInfo (blockStore Mem.lagging)
                  = (Some {| Height := 2; CurrentBlockHash := [];
                             PreviousBlockHash := [] |}, None))
    by reflexivity.
  assert (Hsp : tm_GetBlockNumFromSavepoint
                  (TxMgr := Faulty.unreadableSavepoint) (txtmgmt Mem.lagging)
                = (0, Some "savepoint unreadable")) by reflexivity.
  pose proof (recoverStateDB_savepoint_unreadable
                (txMgrI := Faulty.unreadableSavepoint) 2 Mem.lagging _ _ _ _
                Hinfo ltac:(simpl; lia) Hsp) as [Hrun _].
  exact (conj Hsp Hrun).
Defined.

Lemma recoverStateDB_nil_info_panics_witness :
  bs_GetBlockchainInfo (BlockStore := Faulty.noInfoStore)
    (blockStore Mem.lagging) = (None, Some "blockchain info unavailable")
  /\ recoverStateDB (blockStoreI := Faulty.noInfoStore) 2 Mem.lagging
     = (Panicked nil_dereference, Mem.lagging, [BlockStore_GetBlockchainInfo]).
Proof.
  assert (Hinfo : bs_GetBlockchainInfo (BlockStore := Faulty.noInfoStore)
                    (blockStore Mem.lagging)
                  = (None, Some "blockchain info unavailable"))
    by reflexivity.
  pose proof (recoverStateDB_nil_info_panics
                (blockStoreI := Faulty.noInfoStore) 2 Mem.lagging _ Hinfo)
    as [Hrun _].
  exact (conj Hinfo Hrun).
Defined.

Lemma recoverStateDB_terminates_witness :
  (recoverStateDB 2 Mem.lagging).1.1 <> OutOfFuel
  /\ (length (recoverStateDB 2 Mem.lagging).2 <= 8)%nat.
Proof.
  assert (Hinfo : bs_GetBlockchainInfo (blockStore Mem.lagging)
                  = (Some {| Height := 2; CurrentBlockHash := [];
                             PreviousBlockHash := [] |}, None))
    by reflexivity.
  assert (Hsp : tm_GetBlockNumFromSavepoint (txtmgmt Mem.lagging) = (0, None))
    by reflexivity.
  assert (H0 : is_uint64 0) by (unfold is_uint64, MaxUint64; lia).
  exact (recoverStateDB_terminates 2 Mem.lagging _ _ _ _ Hinfo Hsp H0
           ltac:(unfold MaxUint64; simpl; lia) ltac:(simpl; lia)).
Defined.

Lemma recoverStateDB_never_nil_at_MaxUint64_witness :
  (recoverStateDB (blockStoreI := Mem.fullStore) 3 Mem.nearlyFull).1.1
  <> Returned None.
Proof.
  assert (Hinfo : bs_GetBlockchainInfo (BlockStore := Mem.fullStore)
                    (blockStore Mem.nearlyFull)
                  = (Some {| Height := MaxUint64; CurrentBlockHash := [];
                             PreviousBlockHash := [] |}, None))
    by reflexivity.
  assert (Hsp : tm_GetBlockNumFromSavepoint (txtmgmt Mem.nearlyFull)
                = (MaxUint64 - 1, None)) by reflexivity.
  assert (Hs : is_uint64 (MaxUint64 - 1))
    by (unfold is_uint64, MaxUint64; lia).
  exact (recoverStateDB_never_nil_at_MaxUint64
           (blockStoreI := Mem.fullStore) 3 Mem.nearlyFull _ _ _
           Hinfo eq_refl Hsp Hs ltac:(lia)).
Defined.

Lemma recoverStateDB_brings_savepoint_to_height_witness :
  (recoverStateDB 2 Mem.lagging).1.1 = Returned None
  /\ tm_GetBlockNumFromSavepoint (txtmgmt (recoverStateDB 2 Mem.lagging).1.2)
     = (2, None).
Proof.
  assert (Hinfo : bs_GetBlockchainInfo (blockStore Mem.lagging)
                  = (Some {| Height := 2; CurrentBlockHash := [];
                             PreviousBlockHash := [] |}, None))
    by reflexivity.
  assert (H0 : is_uint64 0) by (unfold is_uint64, MaxUint64; lia).
  assert (H2 : is_uint64 2) by (unfold is_uint64, MaxUint64; lia).
  assert (Hserve : serves_blocks_by_number Mem.Number
                     (blockStore Mem.lagging) 2).
  { apply (Mem_serves_blocks_by_number (blockStore Mem.lagging));
      [reflexivity|unfold MaxUint64; simpl; lia]. }
  assert (Hrun : recoverStateDB 2 Mem.lagging =
                 (Returned None, (recoverStateDB 2 Mem.lagging).1.2,
                  (recoverStateDB 2 Mem.lagging).2))
    by (vm_compute; reflexivity).
  pose proof (recoverStateDB_brings_savepoint_to_height Mem.Number 2
                Mem.lagging _ _ _ _ Hinfo ltac:(simpl; lia) H2 H0 Hserve
                Mem_savepoint_follows_commit Hrun) as [Hsp _].
  split; [by rewrite Hrun|exact Hsp].
Defined.

Lemma Commit_state_failure_panics_witness :
  Commit (txMgrI := Faulty.failingCommit) true Mem.prepared =
    (Panicked "Error during commit to txmgr:state database unavailable",
     mkKVLedger (Mem.mkBS [Mem.stored1]) (txtmgmt Mem.prepared)
       (historymgmt Mem.prepared) (Some Mem.stored1),
     [BlockStore_AddBlock Mem.stored1; TxMgr_Commit]).
Proof.
  assert (Hp : pendingBlockToCommit Mem.prepared = Some Mem.stored1)
    by reflexivity.
  assert (Ha : bs_AddBlock (blockStore Mem.prepared) Mem.stored1
               = (Mem.mkBS [Mem.stored1], None)) by reflexivity.
  assert (Hc : tm_Commit (TxMgr := Faulty.failingCommit) (txtmgmt Mem.prepared)
               = (txtmgmt Mem.prepared, Some "state database unavailable"))
    by reflexivity.
  exact (Commit_state_failure_panics (txMgrI := Faulty.failingCommit) true
           Mem.prepared _ _ _ _ Hp Ha Hc).
Defined.

Lemma Commit_history_failure_panics_witness :
  (Commit (histMgrI := Faulty.failingHistory) true Mem.prepared).1.1
  = Panicked "Error during commit to txthistory:history database unavailable"
  /\ pendingBlockToCommit
       (Commit (histMgrI := Faulty.failingHistory) true Mem.prepared).1.2
     = Some Mem.stored1
  /\ blockStore
       (Commit (histMgrI := Faulty.failingHistory) true Mem.prepared).1.2
     = Mem.mkBS [Mem.stored1].
Proof.
  assert (Hp : pendingBlockToCommit Mem.prepared = Some Mem.stored1)
    by reflexivity.
  assert (Ha : bs_AddBlock (blockStore Mem.prepared) Mem.stored1
               = (Mem.mkBS [Mem.stored1], None)) by reflexivity.
  assert (Hc : tm_Commit (txtmgmt Mem.prepared)
               = ((Mem.Commit (txtmgmt Mem.prepared)).1, None))
    by reflexivity.
  assert (Hh : hist_Commit (HistMgr := Faulty.failingHistory)
                 (historymgmt Mem.prepared) Mem.stored1
               = (historymgmt Mem.prepared,
                  Some "history database unavailable")) by reflexivity.
  rewrite (Commit_history_failure_panics (histMgrI := Faulty.failingHistory)
             true Mem.prepared _ _ _ _ _ eq_refl Hp Ha Hc Hh).
  repeat split.
Defined.

Lemma Commit_twice_panics_witness :
  (Commit true Mem.prepared).1.1 = Returned None
  /\ Commit true (Commit true Mem.prepared).1.2
     = (Panicked errNothingToCommit, (Commit true Mem.prepared).1.2, []).
Proof.
  assert (Hrun : Commit true Mem.prepared =
                 (Returned None, (Commit true Mem.prepared).1.2,
                  (Commit true Mem.prepared).2))
    by (vm_compute; reflexivity).
  split; [by rewrite Hrun|].
  exact (Commit_twice_panics true Mem.prepared _ _ Hrun).
Defined.

Lemma RemoveInvalidTransactionsAndPrepare_failure_keeps_pending_witness :
  RemoveInvalidTransactionsAndPrepare None Mem.prepared =
    (Returned (None, [], Some "nil block"), Mem.prepared,
     [TxMgr_ValidateAndPrepare None true])
  /\ pendingBlockToCommit Mem.prepared = Some Mem.stored1.
Proof.
  assert (Hvp : tm_ValidateAndPrepare (txtmgmt Mem.prepared) None true
                = (txtmgmt Mem.prepared, (None, [], Some "nil block")))
    by reflexivity.
  split; [|reflexivity].
  exact (RemoveInvalidTransactionsAndPrepare_failure_keeps_pending
           Mem.prepared None _ _ _ _ Hvp).
Defined.

End MoreMemRuns.
